(** * The "edit contact" box of Telegram Desktop

    A shallow embedding of
    [Telegram/SourceFiles/boxes/peers/edit_contact_box.cpp]: the
    [Controller] that lays out the box, its three closures ([_focus],
    [_save] and the [submit] slot of the two name fields) and the
    [contacts.addContact] request with its two handlers.

    The widgets, the user record and the API live in a [World] that the
    operations pass along; every call that leaves the file (focus changes,
    error marks, requests, user updates, [closeBox], toasts) is also
    appended to a trace of [Effect]s, so that statements such as "no
    request is issued" or "exactly one toast" can be read off the trace. *)

From Stdlib Require Import ZArith List String Bool Lia.
Import ListNotations.
Open Scope Z_scope.

(** ** Strings *)

(** [QString].  Only emptiness tests, trimming and single-line
    normalisation are applied to it in this file; the last two are
    collaborators (see [Externals]). *)
Definition QString := string.

Definition isEmpty (s : QString) : bool :=
  match s with
  | EmptyString => true
  | String _ _ => false
  end.

(** ** Data *)

(** The two [Ui::InputField]s created by [setupNameFields]: the pointers
    [first] and [last] of the source. *)
Inductive Field := first | last.

Definition Field_eqb (a b : Field) : bool :=
  match a, b with
  | first, first | last, last => true
  | _, _ => false
  end.

(** The part of [UserData] the box reads and writes.  [settings] is the
    [std::optional<MTPDpeerSettings::Flags>] returned by
    [UserData::settings()]; the flags are a 32-bit mask. *)
Record UserData := mkUserData {
  bareId      : Z;
  firstName   : QString;
  lastName    : QString;
  nameOrPhone : QString;
  username    : QString;
  phone       : QString;
  isContact   : bool;
  settings    : option Z
}.

Definition setSettings (which : Z) (u : UserData) : UserData :=
  {| bareId := bareId u; firstName := firstName u; lastName := lastName u;
     nameOrPhone := nameOrPhone u; username := username u; phone := phone u;
     isContact := isContact u; settings := Some which |}.

(** Language keys used by the box; [lt_user] substitutions are kept next
    to the key. *)
Inductive LangKey :=
| lng_edit_contact_title
| lng_enter_contact_data
| lng_box_done
| lng_cancel
| lng_signup_firstname
| lng_signup_lastname
| lng_contact_mobile_hidden
| lng_contact_share_phone
| lng_contact_phone_after (lt_user : QString)
| lng_contact_phone_will_be_shared (lt_user : QString)
| lng_new_contact_add_done (lt_user : QString).

(** Rows of the [GenericBox], in visual order (top to bottom). *)
Inductive Row :=
| Cover (status : LangKey + QString)
| InputField (which : Field) (placeholder : LangKey) (value : QString)
| FlatLabel (text : LangKey)
| Checkbox (text : LangKey) (checked : bool).

Inductive ButtonAction := ButtonSave | ButtonClose.

(** [MTPcontacts_AddContact]. *)
Record AddContact := mkAddContact {
  req_flags : Z;
  req_id    : Z;
  req_first_name : QString;
  req_last_name  : QString;
  req_phone : QString
}.

(** What the [done] lambda of [sendRequest] captures by value, besides
    [this] and [weak]. *)
Record Captured := mkCaptured {
  cap_first : QString;
  cap_last  : QString;
  cap_wasContact : bool
}.

(** ** Collaborators

    Code the box calls but which is defined elsewhere: Qt, the text
    utilities, the data session, the API wrapper, the language pack and
    the generated MTP scheme.  [MTPUpdates] and [RPCError], the payloads
    of the two kinds of response, are opaque types.  MTP flags are single
    bits ([flags.N?true] in the scheme); their positions are left open
    here. *)
Class Externals (MTPUpdates : Type) := {
  SingleLine : QString -> QString;
  trimmed    : QString -> QString;
  findContactPhone : Z -> QString;
  formatPhone : QString -> QString;
  shortName  : UserData -> QString;
  langFirstNameGoesSecond : bool;
  setName : QString -> QString -> QString -> QString -> UserData -> UserData;
  applyUpdates : MTPUpdates -> UserData -> UserData;
  bit_add_phone_privacy_exception : N;
  bit_report_spam : N;
  bit_add_contact : N;
  bit_block_contact : N;
  bit_need_contacts_exception : N
}.

Definition flag (bit : N) : Z := Z.shiftl 1 (Z.of_N bit).

Section Box.

Context {MTPUpdates RPCError : Type} {E : Externals MTPUpdates}.

Definition f_add_phone_privacy_exception : Z := flag bit_add_phone_privacy_exception.
Definition f_report_spam : Z := flag bit_report_spam.
Definition f_add_contact : Z := flag bit_add_contact.
Definition f_block_contact : Z := flag bit_block_contact.
Definition f_need_contacts_exception : Z := flag bit_need_contacts_exception.

(** Calls that leave the file, in the order they are made. *)
Inductive Effect :=
| SetFocusFast (f : Field)
| SetFocus (f : Field)
| ShowError (f : Field)
| ApiRequest (r : AddContact)
| UserSetName (newFirst newLast newNameOrPhone newUsername : QString)
| ApiApplyUpdates (result : MTPUpdates)
| UserSetSettings (which : Z)
| CloseBox
| ToastShow (text : LangKey).

(** The [GenericBox].  [box_alive] is what the [QPointer] made by
    [make_weak(_box)] tests: it is false once the box has been destroyed.
    The [Controller] is created by [box->lifetime().make_state], so it is
    destroyed together with the box. *)
Record GenericBox := mkGenericBox {
  rows     : list Row;
  title    : option LangKey;
  buttons  : list (LangKey * ButtonAction);
  tabOrder : list (Field * Field);
  focusCallbackSet : bool;
  box_alive : bool
}.

(** The world: the user (owned by the session), the box, the state of its
    widgets, the [Controller]'s members [_sharePhone] and [_phone], the
    requests in flight with the captures of their handlers, and the trace. *)
Record World := mkWorld {
  _user  : UserData;
  _box   : GenericBox;
  firstText : QString;
  lastText  : QString;
  focused   : option Field;
  _sharePhone : option bool;
  _phone : QString;
  pending : list (AddContact * Captured);
  effects : list Effect
}.

Definition with_user (u : UserData) (w : World) : World :=
  {| _user := u; _box := _box w; firstText := firstText w; lastText := lastText w;
     focused := focused w; _sharePhone := _sharePhone w; _phone := _phone w;
     pending := pending w; effects := effects w |}.

Definition with_box (b : GenericBox) (w : World) : World :=
  {| _user := _user w; _box := b; firstText := firstText w; lastText := lastText w;
     focused := focused w; _sharePhone := _sharePhone w; _phone := _phone w;
     pending := pending w; effects := effects w |}.

Definition with_texts (f l : QString) (w : World) : World :=
  {| _user := _user w; _box := _box w; firstText := f; lastText := l;
     focused := focused w; _sharePhone := _sharePhone w; _phone := _phone w;
     pending := pending w; effects := effects w |}.

Definition with_focused (f : option Field) (w : World) : World :=
  {| _user := _user w; _box := _box w; firstText := firstText w; lastText := lastText w;
     focused := f; _sharePhone := _sharePhone w; _phone := _phone w;
     pending := pending w; effects := effects w |}.

Definition with_sharePhone (c : option bool) (w : World) : World :=
  {| _user := _user w; _box := _box w; firstText := firstText w; lastText := lastText w;
     focused := focused w; _sharePhone := c; _phone := _phone w;
     pending := pending w; effects := effects w |}.

Definition with_pending (p : list (AddContact * Captured)) (w : World) : World :=
  {| _user := _user w; _box := _box w; firstText := firstText w; lastText := lastText w;
     focused := focused w; _sharePhone := _sharePhone w; _phone := _phone w;
     pending := p; effects := effects w |}.

Definition emit (e : Effect) (w : World) : World :=
  {| _user := _user w; _box := _box w; firstText := firstText w; lastText := lastText w;
     focused := focused w; _sharePhone := _sharePhone w; _phone := _phone w;
     pending := pending w; effects := effects w ++ [e] |}.

(** *** The box *)

Definition with_rows (r : list Row) (b : GenericBox) : GenericBox :=
  {| rows := r; title := title b; buttons := buttons b; tabOrder := tabOrder b;
     focusCallbackSet := focusCallbackSet b; box_alive := box_alive b |}.

Definition rowsCount (w : World) : nat := List.length (rows (_box w)).

Definition addRow (r : Row) (w : World) : World :=
  with_box (with_rows (rows (_box w) ++ [r]) (_box w)) w.

Definition insertRow (atPosition : nat) (r : Row) (w : World) : World :=
  with_box (with_rows (firstn atPosition (rows (_box w)) ++ r
                         :: skipn atPosition (rows (_box w))) (_box w)) w.

Definition setTitle (t : LangKey) (w : World) : World :=
  with_box {| rows := rows (_box w); title := Some t; buttons := buttons (_box w);
              tabOrder := tabOrder (_box w);
              focusCallbackSet := focusCallbackSet (_box w);
              box_alive := box_alive (_box w) |} w.

Definition addButton (t : LangKey) (a : ButtonAction) (w : World) : World :=
  with_box {| rows := rows (_box w); title := title (_box w);
              buttons := buttons (_box w) ++ [(t, a)];
              tabOrder := tabOrder (_box w);
              focusCallbackSet := focusCallbackSet (_box w);
              box_alive := box_alive (_box w) |} w.

Definition setTabOrder (a b : Field) (w : World) : World :=
  with_box {| rows := rows (_box w); title := title (_box w);
              buttons := buttons (_box w);
              tabOrder := tabOrder (_box w) ++ [(a, b)];
              focusCallbackSet := focusCallbackSet (_box w);
              box_alive := box_alive (_box w) |} w.

Definition setFocusCallback (w : World) : World :=
  with_box {| rows := rows (_box w); title := title (_box w);
              buttons := buttons (_box w); tabOrder := tabOrder (_box w);
              focusCallbackSet := true;
              box_alive := box_alive (_box w) |} w.

Definition closeBox (w : World) : World := emit CloseBox w.

(** *** The input fields *)

Definition getLastText (f : Field) (w : World) : QString :=
  match f with
  | first => firstText w
  | last => lastText w
  end.

Definition hasFocus (f : Field) (w : World) : bool :=
  match focused w with
  | Some g => Field_eqb f g
  | None => false
  end.

Definition setFocusFast (f : Field) (w : World) : World :=
  emit (SetFocusFast f) (with_focused (Some f) w).

Definition setFocus (f : Field) (w : World) : World :=
  emit (SetFocus f) (with_focused (Some f) w).

Definition showError (f : Field) (w : World) : World :=
  emit (ShowError f) w.

(** ** The controller *)

Definition UserPhone (user : UserData) : QString :=
  let phone := phone user in
  if isEmpty phone then findContactPhone (bareId user) else phone.

Definition emptyBox : GenericBox :=
  {| rows := []; title := None; buttons := []; tabOrder := [];
     focusCallbackSet := false; box_alive := true |}.

(** [Controller::Controller]: [_sharePhone] starts as [nullptr] and
    [_phone] is resolved once. *)
Definition Controller (user : UserData) : World :=
  {| _user := user; _box := emptyBox; firstText := EmptyString; lastText := EmptyString;
     focused := None; _sharePhone := None; _phone := UserPhone user;
     pending := []; effects := [] |}.

Definition setupCover (w : World) : World :=
  addRow (Cover (if isEmpty (_phone w)
                 then inl lng_contact_mobile_hidden
                 else inr (formatPhone (_phone w)))) w.

(** The closure [getValue] of [initNameFields]. *)
Definition getValue (field : Field) (w : World) : QString :=
  trimmed (SingleLine (getLastText field w)).

(** [sendRequest] hands the request to the API together with its
    handlers; the handlers run when the response is delivered
    ([sendRequest_done], [sendRequest_fail] below). *)
Definition sendRequest (first last : QString) (w : World) : World :=
  let wasContact := isContact (_user w) in
  let request :=
    {| req_flags := if match _sharePhone w with
                       | Some checked => checked
                       | None => false
                       end
                    then f_add_phone_privacy_exception
                    else 0;
       req_id := bareId (_user w);
       req_first_name := first;
       req_last_name := last;
       req_phone := _phone w |} in
  emit (ApiRequest request)
    (with_pending (pending w ++ [(request, mkCaptured first last wasContact)]) w).

(** The three closures made by [initNameFields].  Each captures the
    fields [first] and [last] and the flag [inverted]; here the flag is an
    argument.  [_focus] is the focus callback of the box, [_save] the
    action of the Done button, [submit] the slot connected to the
    [submitted] signal of both fields. *)
Definition _focus (inverted : bool) (w : World) : World :=
  let firstValue := getValue first w in
  let lastValue := getValue last w in
  let empty := isEmpty firstValue && isEmpty lastValue in
  let focusFirst := xorb inverted empty in
  setFocusFast (if focusFirst then first else last) w.

Definition _save (inverted : bool) (w : World) : World :=
  let firstValue := getValue first w in
  let lastValue := getValue last w in
  let empty := isEmpty firstValue && isEmpty lastValue in
  if empty then
    showError (if inverted then last else first) (_focus inverted w)
  else
    sendRequest firstValue lastValue w.

Definition submit (inverted : bool) (w : World) : World :=
  let firstValue := trimmed (getLastText first w) in
  let lastValue := trimmed (getLastText last w) in
  let empty := isEmpty firstValue && isEmpty lastValue in
  if (if inverted then hasFocus last w else empty) then
    setFocus first w
  else if (if inverted then empty else hasFocus first w) then
    setFocus last w
  else
    _save inverted w.

(** What [initNameFields] does to the box itself: the tab order follows
    the visual order. *)
Definition initNameFields (inverted : bool) (w : World) : World :=
  if inverted then setTabOrder last first w else w.

Definition setupNameFields (w : World) : World :=
  let inverted := langFirstNameGoesSecond in
  let w := addRow (InputField first lng_signup_firstname (firstName (_user w))) w in
  let preparedLast := InputField last lng_signup_lastname (lastName (_user w)) in
  let w := if inverted
           then insertRow (rowsCount w - 1) preparedLast w
           else addRow preparedLast w in
  let w := with_texts (firstName (_user w)) (lastName (_user w)) w in
  initNameFields inverted w.

Definition setupWarning (w : World) : World :=
  if isContact (_user w) || negb (isEmpty (_phone w)) then w
  else addRow (FlatLabel (lng_contact_phone_after (shortName (_user w)))) w.

Definition setupSharePhoneNumber (w : World) : World :=
  match settings (_user w) with
  | None => w
  | Some s =>
      if Z.land s f_need_contacts_exception =? 0 then w
      else
        let w := with_sharePhone (Some true)
                   (addRow (Checkbox lng_contact_share_phone true) w) in
        addRow (FlatLabel (lng_contact_phone_will_be_shared (shortName (_user w)))) w
  end.

Definition setupContent (w : World) : World :=
  setupSharePhoneNumber (setupWarning (setupNameFields (setupCover w))).

Definition prepare (w : World) : World :=
  let w := setupContent w in
  let w := setTitle (if isContact (_user w)
                     then lng_edit_contact_title
                     else lng_enter_contact_data) w in
  let w := addButton lng_box_done ButtonSave w in
  let w := addButton lng_cancel ButtonClose w in
  setFocusCallback w.

(** [EditContactBox]: the controller is made a state of the box's
    lifetime and prepared. *)
Definition EditContactBox (user : UserData) : World :=
  prepare (Controller user).

(** *** The handlers of the request

    The [done] lambda of [sendRequest], statement by statement.  [c] holds
    the values it captured when the request was sent; [_user] is read
    through the captured [this]. *)

Definition done_setName (c : Captured) (w : World) : World :=
  let user := _user w in
  emit (UserSetName (cap_first c) (cap_last c) (nameOrPhone user) (username user))
    (with_user (setName (cap_first c) (cap_last c)
                  (nameOrPhone user) (username user) user) w).

Definition done_applyUpdates (result : MTPUpdates) (w : World) : World :=
  emit (ApiApplyUpdates result) (with_user (applyUpdates result (_user w)) w).

Definition done_settings (w : World) : World :=
  match settings (_user w) with
  | Some settings =>
      let flags := Z.lor (Z.lor f_add_contact f_block_contact) f_report_spam in
      emit (UserSetSettings (Z.land settings (Z.lnot flags)))
        (with_user (setSettings (Z.land settings (Z.lnot flags)) (_user w)) w)
  | None => w
  end.

Definition done_close (w : World) : World :=
  if box_alive (_box w) then closeBox w else w.

Definition done_toast (c : Captured) (w : World) : World :=
  if negb (cap_wasContact c)
  then emit (ToastShow (lng_new_contact_add_done (cap_first c))) w
  else w.

(** The statements of the lambda in order, for a [this] that is still
    valid. *)
Definition done_body (c : Captured) (result : MTPUpdates) (w : World) : World :=
  done_toast c
    (done_close
       (done_settings
          (done_applyUpdates result
             (done_setName c w)))).

(** The [done] lambda as it is invoked.  Its first statement reads the
    member [_user] of the captured [this]; the [Controller] lives in the
    lifetime of the box, so once the box is destroyed there is nothing
    defined to run ([None]). *)
Definition sendRequest_done (c : Captured) (result : MTPUpdates) (w : World)
    : option World :=
  if box_alive (_box w) then Some (done_body c result w) else None.

(** The [fail] lambda: an empty body. *)
Definition sendRequest_fail (c : Captured) (error : RPCError) (w : World) : World :=
  w.

(** ** The event loop

    Everything runs on the UI thread, one event at a time.  A run is
    undefined ([None]) when a handler uses the [Controller] after the box
    that owns it has been destroyed. *)
Inductive Event :=
| TextEdited (f : Field) (text : QString)
| SharePhoneToggled
| FocusMoved (f : option Field)
| FocusCallback
| Submitted
| ButtonClicked (a : ButtonAction)
| BoxDestroyed
| UserUpdated (user : UserData)
| RequestDone (n : nat) (result : MTPUpdates)
| RequestFail (n : nat) (error : RPCError).

Definition destroyBox (w : World) : World :=
  with_box {| rows := rows (_box w); title := title (_box w);
              buttons := buttons (_box w); tabOrder := tabOrder (_box w);
              focusCallbackSet := focusCallbackSet (_box w);
              box_alive := false |} w.

Definition forget (n : nat) (w : World) : World :=
  with_pending (firstn n (pending w) ++ skipn (S n) (pending w)) w.

(** Events of the widgets reach the closures only while the box exists. *)
Definition widgetEvent (e : Event) (w : World) : World :=
  let inverted := langFirstNameGoesSecond in
  match e with
  | TextEdited first text => with_texts text (lastText w) w
  | TextEdited last text => with_texts (firstText w) text w
  | SharePhoneToggled => with_sharePhone (option_map negb (_sharePhone w)) w
  | FocusMoved f => with_focused f w
  | FocusCallback => _focus inverted w
  | Submitted => submit inverted w
  | ButtonClicked ButtonSave => _save inverted w
  | ButtonClicked ButtonClose => closeBox w
  | _ => w
  end.

Definition step (e : Event) (w : World) : option World :=
  match e with
  | BoxDestroyed => Some (destroyBox w)
  | UserUpdated user => Some (with_user user w)
  | RequestDone n result =>
      match nth_error (pending w) n with
      | Some (_, c) => sendRequest_done c result (forget n w)
      | None => Some w
      end
  | RequestFail n error =>
      match nth_error (pending w) n with
      | Some (_, c) => Some (sendRequest_fail c error (forget n w))
      | None => Some w
      end
  | _ => if box_alive (_box w) then Some (widgetEvent e w) else Some w
  end.

Fixpoint run (es : list Event) (w : World) : option World :=
  match es with
  | [] => Some w
  | e :: es =>
      match step e w with
      | Some w => run es w
      | None => None
      end
  end.

(** ** Reading the trace *)

Definition requestOf (e : Effect) : option AddContact :=
  match e with ApiRequest r => Some r | _ => None end.

Definition toastOf (e : Effect) : option LangKey :=
  match e with ToastShow t => Some t | _ => None end.

Definition isCloseBox (e : Effect) : bool :=
  match e with CloseBox => true | _ => false end.


Fixpoint collect {A B} (f : A -> option B) (l : list A) : list B :=
  match l with
  | [] => []
  | a :: l => match f a with
              | Some b => b :: collect f l
              | None => collect f l
              end
  end.

Definition requests (w : World) : list AddContact := collect requestOf (effects w).
Definition toasts (w : World) : list LangKey := collect toastOf (effects w).
Definition closeCalls (w : World) : nat := List.length (filter isCloseBox (effects w)).

(** ** Visual order

    With [inverted] the last-name field is inserted above the first-name
    field, so it leads. *)
Definition leading (inverted : bool) : Field := if inverted then last else first.
Definition trailing (inverted : bool) : Field := if inverted then first else last.

(** The field [_focus] picks, as a function of the two values and the
    flag: the leading field when both values are empty, the trailing one
    otherwise.  [focus_target] below shows that [_focus] computes it. *)
Definition focusTarget (inverted : bool) (firstValue lastValue : QString) : Field :=
  if isEmpty firstValue && isEmpty lastValue then leading inverted else trailing inverted.

(** The test [empty] of the [submit] slot: on the trimmed texts, without
    single-line normalisation. *)
Definition bothTrimmedEmpty (w : World) : bool :=
  isEmpty (trimmed (getLastText first w)) && isEmpty (trimmed (getLastText last w)).

(** [flags & f] read as a condition. *)
Definition hasFlag (flags f : Z) : bool := negb (Z.land flags f =? 0).

(** The condition under which [setupSharePhoneNumber] does not return
    early. *)
Definition needsException (user : UserData) : bool :=
  match settings user with
  | Some s => hasFlag s f_need_contacts_exception
  | None => false
  end.

Definition fieldOf (r : Row) : option Field :=
  match r with InputField f _ _ => Some f | _ => None end.

Definition visualOrder (w : World) : list Field := collect fieldOf (rows (_box w)).

(** ** Predicates on worlds *)

(** [w'] differs from [w] at most in the focus, the requests in flight
    and the trace. *)
Definition sameForm (w w' : World) : Prop :=
  _user w' = _user w
  /\ _box w' = _box w
  /\ firstText w' = firstText w
  /\ lastText w' = lastText w
  /\ _sharePhone w' = _sharePhone w
  /\ _phone w' = _phone w.

(** What holds of everything sent so far: the phone is the one resolved
    at construction, no request has both names empty, and each handler
    captured the names its request carries. *)
Definition wellSent (resolved : QString) (w : World) : Prop :=
  _phone w = resolved
  /\ Forall (fun r => isEmpty (req_first_name r) && isEmpty (req_last_name r) = false
                      /\ req_phone r = resolved) (requests w)
  /\ Forall (fun rc => cap_first (snd rc) = req_first_name (fst rc)
                       /\ cap_last (snd rc) = req_last_name (fst rc)) (pending w).

End Box.

Arguments Effect : clear implicits.
Arguments World : clear implicits.
Arguments Event : clear implicits.

(** ** An instance of the collaborators

    Used to run the model on concrete inputs.  Texts are over Latin-1;
    [trim] strips white space at both ends, [singleLine] strips white
    space and control characters at both ends and turns the line breaks
    left inside into spaces.  An update batch is any change of the user
    record.  Flag positions are those of the scheme
    ([peerSettings]: [report_spam] 0, [add_contact] 1, [block_contact] 2,
    [need_contacts_exception] 4; [contacts.addContact]:
    [add_phone_privacy_exception] 0). *)
Module Sample.

Import Ascii.
Local Open Scope string_scope.

Definition isSpace (c : ascii) : bool :=
  let n := nat_of_ascii c in
  (Nat.leb 9 n && Nat.leb n 13) || Nat.eqb n 32 || Nat.eqb n 133 || Nat.eqb n 160.

Definition isBad (c : ascii) : bool :=
  let n := nat_of_ascii c in
  Nat.eqb n 0 || (Nat.leb 127 n && Nat.ltb n 160 && negb (Nat.eqb n 156)).

Definition isNewline (c : ascii) : bool :=
  let n := nat_of_ascii c in
  Nat.eqb n 10 || Nat.eqb n 13.

Fixpoint dropLeft (p : ascii -> bool) (s : string) : string :=
  match s with
  | EmptyString => EmptyString
  | String c r => if p c then dropLeft p r else s
  end.

Fixpoint dropRight (p : ascii -> bool) (s : string) : string :=
  match s with
  | EmptyString => EmptyString
  | String c r =>
      match dropRight p r with
      | EmptyString => if p c then EmptyString else String c EmptyString
      | r' => String c r'
      end
  end.

Fixpoint mapChars (f : ascii -> ascii) (s : string) : string :=
  match s with
  | EmptyString => EmptyString
  | String c r => String (f c) (mapChars f r)
  end.

Definition trim (s : QString) : QString :=
  dropRight isSpace (dropLeft isSpace s).

Definition singleLine (s : QString) : QString :=
  let isTrimmed c := isSpace c || isBad c in
  mapChars (fun c => if isNewline c then " "%char else c)
    (dropRight isTrimmed (dropLeft isTrimmed s)).

Definition storeName (newFirst newLast newNameOrPhone newUsername : QString)
    (u : UserData) : UserData :=
  {| bareId := bareId u; firstName := newFirst; lastName := newLast;
     nameOrPhone := newNameOrPhone; username := newUsername; phone := phone u;
     isContact := isContact u; settings := settings u |}.

Definition Updates : Type := UserData -> UserData.

Definition externals (inverted : bool) : Externals Updates :=
  {| SingleLine := singleLine;
     trimmed := trim;
     findContactPhone := fun _ => "";
     formatPhone := fun p => "+" ++ p;
     shortName := firstName;
     langFirstNameGoesSecond := inverted;
     setName := storeName;
     applyUpdates := fun result u => result u;
     bit_add_phone_privacy_exception := 0;
     bit_report_spam := 0;
     bit_add_contact := 1;
     bit_block_contact := 2;
     bit_need_contacts_exception := 4 |}.

Definition plainOrder : Externals Updates := externals false.
Definition invertedOrder : Externals Updates := externals true.

(** A user who is not yet a contact, with the top bar asking to add,
    block or report, and the share-phone exception requested
    (settings [0b10111]). *)
Definition stranger : UserData :=
  {| bareId := 777; firstName := ""; lastName := ""; nameOrPhone := "";
     username := "ann"; phone := ""; isContact := false; settings := Some 23 |}.

(** A contact with a known phone and no settings. *)
Definition friend : UserData :=
  {| bareId := 42; firstName := "Bob"; lastName := "Lee"; nameOrPhone := "";
     username := "bob"; phone := "15550100"; isContact := true; settings := None |}.

(** The update the server sends back for a new contact: the user becomes
    a contact. *)
Definition nowContact (u : UserData) : UserData :=
  {| bareId := bareId u; firstName := firstName u; lastName := lastName u;
     nameOrPhone := nameOrPhone u; username := username u; phone := phone u;
     isContact := true; settings := settings u |}.

End Sample.

(** Worlds used in the examples below. *)
Module Scenes.

Import Sample.
Local Open Scope string_scope.

(** The box opened on [stranger], in plain and in inverted name order:
    both fields start empty. *)
Definition blank : World Updates :=
  EditContactBox (E := plainOrder) stranger.

Definition blankInverted : World Updates :=
  EditContactBox (E := invertedOrder) stranger.

(** The box opened on [friend]: both fields start filled. *)
Definition filled : World Updates :=
  EditContactBox (E := plainOrder) friend.

Definition filledInverted : World Updates :=
  EditContactBox (E := invertedOrder) friend.

(** Responses: the update that makes the user a contact, an update that
    changes nothing, and an error. *)
Definition joined : Updates := nowContact.
Definition unchanged : Updates := fun u => u.
Definition floodWait : string := "FLOOD_WAIT".


End Scenes.

(** * Properties *)

Lemma isEmpty_true (s : QString) : isEmpty s = true <-> s = EmptyString.
Proof. destruct s; simpl; split; congruence. Qed.

Lemma Field_eqb_eq (a b : Field) : Field_eqb a b = true <-> a = b.
Proof. destruct a, b; simpl; split; congruence. Qed.

Lemma collect_app {A B} (f : A -> option B) (l1 l2 : list A) :
  collect f (l1 ++ l2) = collect f l1 ++ collect f l2.
Proof.
  induction l1 as [|a l1 IH]; simpl; [reflexivity|].
  destruct (f a); simpl; rewrite IH; reflexivity.
Qed.

Lemma leading_trailing_differ (inverted : bool) : leading inverted <> trailing inverted.
Proof. destruct inverted; discriminate. Qed.

Section Facts.

Context {MTPUpdates RPCError : Type} {E : Externals MTPUpdates}.

(** The name fields appear in the box in the order [leading], [trailing]. *)
Lemma visualOrder_EditContactBox (user : UserData) :
  visualOrder (EditContactBox user)
  = [leading langFirstNameGoesSecond; trailing langFirstNameGoesSecond].
Proof.
  unfold visualOrder, EditContactBox, prepare, setupContent, setupSharePhoneNumber,
    setupWarning, setupNameFields, initNameFields, setupCover.
  destruct langFirstNameGoesSecond; simpl;
    destruct (isContact user); simpl;
    destruct (isEmpty (UserPhone user)); simpl;
    destruct (settings user) as [s|]; simpl;
    try destruct (Z.land s f_need_contacts_exception =? 0); reflexivity.
Qed.

(** ** Focus and save *)

Lemma requests_emit (e : Effect MTPUpdates) (w : World MTPUpdates) :
  requests (emit e w) = requests w ++ match requestOf e with Some r => [r] | None => [] end.
Proof.
  unfold requests; simpl. rewrite collect_app. simpl.
  destruct (requestOf e); reflexivity.
Qed.

Lemma toasts_emit (e : Effect MTPUpdates) (w : World MTPUpdates) :
  toasts (emit e w) = toasts w ++ match toastOf e with Some t => [t] | None => [] end.
Proof.
  unfold toasts; simpl. rewrite collect_app. simpl.
  destruct (toastOf e); reflexivity.
Qed.

Lemma closeCalls_emit (e : Effect MTPUpdates) (w : World MTPUpdates) :
  closeCalls (emit e w) = (closeCalls w + if isCloseBox e then 1 else 0)%nat.
Proof.
  unfold closeCalls; simpl. rewrite filter_app, length_app. simpl.
  destruct (isCloseBox e); reflexivity.
Qed.

Lemma focus_target (inverted : bool) (w : World MTPUpdates) :
  _focus inverted w
  = setFocusFast (focusTarget inverted (getValue first w) (getValue last w)) w.
Proof.
  unfold _focus, focusTarget.
  destruct (isEmpty (getValue first w) && isEmpty (getValue last w)), inverted;
    reflexivity.
Qed.

(** C1 (amended).  When both values are empty after single-line
    normalisation and trimming, the save action is rejected: it runs the
    default focus, which goes to the leading field, then marks that same
    leading field erroneous; no request is issued. *)
Theorem save_rejects_empty_names (inverted : bool) (w : World MTPUpdates) :
  isEmpty (getValue first w) = true ->
  isEmpty (getValue last w) = true ->
  _save inverted w = showError (leading inverted) (_focus inverted w)
  /\ effects (_focus inverted w) = effects w ++ [SetFocusFast (leading inverted)]
  /\ effects (_save inverted w)
     = effects (_focus inverted w) ++ [ShowError (leading inverted)]
  /\ requests (_save inverted w) = requests w
  /\ pending (_save inverted w) = pending w.
Proof.
  intros Hf Hl.
  assert (Hsave : _save inverted w = showError (leading inverted) (_focus inverted w)).
  { unfold _save. rewrite Hf, Hl. simpl. destruct inverted; reflexivity. }
  assert (Hfocus : _focus inverted w = setFocusFast (leading inverted) w).
  { rewrite focus_target. unfold focusTarget. rewrite Hf, Hl. reflexivity. }
  rewrite Hsave, Hfocus.
  repeat split.
  unfold showError. rewrite requests_emit. simpl.
  unfold setFocusFast. rewrite requests_emit. simpl.
  rewrite !app_nil_r. reflexivity.
Qed.

(** C2 (amended).  When at least one value is non-empty after single-line
    normalisation and trimming, the save action issues exactly one
    add-contact request, carrying the two field texts after single-line
    normalisation and trimming. *)
Theorem save_sends_one_request (inverted : bool) (w : World MTPUpdates) :
  isEmpty (getValue first w) = false \/ isEmpty (getValue last w) = false ->
  exists r : AddContact,
    effects (_save inverted w) = effects w ++ [ApiRequest r]
    /\ requests (_save inverted w) = requests w ++ [r]
    /\ req_first_name r = trimmed (SingleLine (getLastText first w))
    /\ req_last_name r = trimmed (SingleLine (getLastText last w))
    /\ exists c, pending (_save inverted w) = pending w ++ [(r, c)].
Proof.
  intros H.
  assert (Hne : isEmpty (getValue first w) && isEmpty (getValue last w) = false).
  { destruct H as [H|H]; rewrite H; [reflexivity | apply andb_false_r]. }
  unfold _save. rewrite Hne. unfold sendRequest.
  eexists. split; [reflexivity|].
  split; [rewrite requests_emit; reflexivity|].
  split; [reflexivity|]. split; [reflexivity|].
  eexists. reflexivity.
Qed.

(** ** The submit key *)

Lemma hasFocus_leading_trailing (inverted : bool) (w : World MTPUpdates) :
  hasFocus (leading inverted) w = true -> hasFocus (trailing inverted) w = false.
Proof.
  unfold hasFocus. destruct (focused w) as [[|]|], inverted; simpl; congruence.
Qed.

(** C3 (amended).  The submit key in a name field, emptiness being judged
    on the trimmed texts.  If at least one field is non-empty: focus moves
    to the trailing field when the leading field has focus (whether or not
    the trailing field is empty), and the save action is triggered
    otherwise.  If both are empty the save action is never triggered and
    only the focus is set: on the leading field when it does not have
    focus, and, in inverted order, forward on the trailing field when the
    leading field has focus. *)
Theorem submit_key (inverted : bool) (w : World MTPUpdates) :
  (bothTrimmedEmpty w = false -> hasFocus (leading inverted) w = true ->
     submit inverted w = setFocus (trailing inverted) w)
  /\ (bothTrimmedEmpty w = false -> hasFocus (leading inverted) w = false ->
     submit inverted w = _save inverted w)
  /\ (bothTrimmedEmpty w = true -> hasFocus (leading inverted) w = false ->
     submit inverted w = setFocus (leading inverted) w)
  /\ (bothTrimmedEmpty w = true ->
     exists f, submit inverted w = setFocus f w
               /\ effects (submit inverted w) = effects w ++ [SetFocus f]
               /\ requests (submit inverted w) = requests w)
  /\ (bothTrimmedEmpty w = true -> inverted = true ->
     hasFocus (leading inverted) w = true ->
     submit inverted w = setFocus (trailing inverted) w).
Proof.
  unfold bothTrimmedEmpty, submit.
  repeat split; intros.
  - destruct inverted; simpl in *.
    + rewrite H0. reflexivity.
    + rewrite H, H0. reflexivity.
  - destruct inverted; simpl in *.
    + rewrite H0, H. reflexivity.
    + rewrite H, H0. reflexivity.
  - destruct inverted; simpl in *.
    + rewrite H0, H. reflexivity.
    + rewrite H. reflexivity.
  - rewrite H.
    assert (Hset : forall f, effects (setFocus f w) = effects w ++ [SetFocus f]
                             /\ requests (setFocus f w) = requests w).
    { intros f. unfold setFocus. rewrite requests_emit. simpl.
      rewrite app_nil_r. split; reflexivity. }
    destruct inverted.
    + destruct (hasFocus last w).
      * exists first. split; [reflexivity | apply Hset].
      * exists last. split; [reflexivity | apply Hset].
    + exists first. split; [reflexivity | apply Hset].
  - subst inverted. simpl in *. rewrite H1. reflexivity.
Qed.

(** In plain order, with both fields empty, the submit key puts the focus
    on the first-name field wherever it was. *)
Lemma submit_plain_order_both_empty (w : World MTPUpdates) :
  bothTrimmedEmpty w = true -> submit false w = setFocus first w.
Proof. unfold bothTrimmedEmpty, submit. intros ->. reflexivity. Qed.

(** ** The default focus *)

(** C4 (amended).  The default focus goes to the leading field when both
    values are empty after normalisation and trimming, and to the trailing
    field otherwise, in both name orders and whichever of the two values is
    the non-empty one.  The focused field depends on the two values and on
    the inversion flag only. *)
Theorem focusDefault_rule (inverted : bool) (w : World MTPUpdates) :
  (isEmpty (getValue first w) && isEmpty (getValue last w) = true ->
     focused (_focus inverted w) = Some (leading inverted))
  /\ (isEmpty (getValue first w) && isEmpty (getValue last w) = false ->
     focused (_focus inverted w) = Some (trailing inverted))
  /\ effects (_focus inverted w)
     = effects w ++ [SetFocusFast (focusTarget inverted (getValue first w) (getValue last w))]
  /\ (forall w' : World MTPUpdates,
        getValue first w' = getValue first w ->
        getValue last w' = getValue last w ->
        focused (_focus inverted w') = focused (_focus inverted w)).
Proof.
  repeat split; intros.
  - rewrite focus_target. unfold focusTarget. rewrite H. reflexivity.
  - rewrite focus_target. unfold focusTarget. rewrite H. reflexivity.
  - rewrite focus_target. reflexivity.
  - rewrite !focus_target. rewrite H, H0. reflexivity.
Qed.

(** ** The request *)

Lemma flag_pow (b : N) : flag b = 2 ^ Z.of_N b.
Proof. unfold flag. apply Z.shiftl_1_l. Qed.

Lemma flag_pos (b : N) : 0 < flag b.
Proof. rewrite flag_pow. apply Z.pow_pos_nonneg; lia. Qed.

Lemma hasFlag_self (b : N) : hasFlag (flag b) (flag b) = true.
Proof.
  unfold hasFlag. rewrite Z.land_diag.
  pose proof (flag_pos b). destruct (Z.eqb_spec (flag b) 0); [lia | reflexivity].
Qed.

Lemma hasFlag_zero (f : Z) : hasFlag 0 f = false.
Proof. unfold hasFlag. rewrite Z.land_0_l. reflexivity. Qed.

(** C6.  The request carries the add-phone-privacy-exception flag exactly
    when the share-phone checkbox exists and is checked; without a
    checkbox the flags are empty. *)
Theorem request_privacy_flag (firstValue lastValue : QString) (w : World MTPUpdates) :
  exists r : AddContact,
    requests (sendRequest firstValue lastValue w) = requests w ++ [r]
    /\ (hasFlag (req_flags r) f_add_phone_privacy_exception = true
        <-> _sharePhone w = Some true)
    /\ (_sharePhone w = None -> req_flags r = 0)
    /\ req_first_name r = firstValue
    /\ req_last_name r = lastValue
    /\ req_phone r = _phone w.
Proof.
  unfold sendRequest. eexists. rewrite requests_emit. simpl.
  split; [reflexivity|].
  unfold f_add_phone_privacy_exception.
  destruct (_sharePhone w) as [[|]|]; simpl;
    rewrite ?hasFlag_self, ?hasFlag_zero;
    repeat split; intros; try reflexivity; try discriminate.
Qed.

(** ** The success handler *)

Lemma sendRequest_done_alive (c : Captured) (result : MTPUpdates) (w : World MTPUpdates) :
  box_alive (_box w) = true ->
  sendRequest_done c result w = Some (done_body c result w).
Proof. intros H. unfold sendRequest_done. rewrite H. reflexivity. Qed.

Lemma sendRequest_done_destroyed (c : Captured) (result : MTPUpdates)
    (w : World MTPUpdates) :
  box_alive (_box w) = false -> sendRequest_done c result w = None.
Proof. intros H. unfold sendRequest_done. rewrite H. reflexivity. Qed.

Lemma toasts_done_setName (c : Captured) (w : World MTPUpdates) :
  toasts (done_setName c w) = toasts w.
Proof. unfold done_setName. rewrite toasts_emit. simpl. apply app_nil_r. Qed.

Lemma toasts_done_applyUpdates (result : MTPUpdates) (w : World MTPUpdates) :
  toasts (done_applyUpdates result w) = toasts w.
Proof. unfold done_applyUpdates. rewrite toasts_emit. simpl. apply app_nil_r. Qed.

Lemma toasts_done_settings (w : World MTPUpdates) : toasts (done_settings w) = toasts w.
Proof.
  unfold done_settings. destruct (settings (_user w)); [|reflexivity].
  rewrite toasts_emit. simpl. apply app_nil_r.
Qed.

Lemma toasts_done_close (w : World MTPUpdates) : toasts (done_close w) = toasts w.
Proof.
  unfold done_close, closeBox. destruct (box_alive (_box w)); [|reflexivity].
  rewrite toasts_emit. simpl. apply app_nil_r.
Qed.

Lemma toasts_done (c : Captured) (result : MTPUpdates) (w : World MTPUpdates) :
  toasts (done_body c result w)
  = toasts w ++ if cap_wasContact c then [] else [lng_new_contact_add_done (cap_first c)].
Proof.
  unfold done_body, done_toast.
  destruct (cap_wasContact c); simpl; rewrite ?toasts_emit; simpl;
    rewrite toasts_done_close, toasts_done_settings, toasts_done_applyUpdates,
      toasts_done_setName, ?app_nil_r; reflexivity.
Qed.


(** The calls made by the success handler, in order. *)
Lemma done_effects (c : Captured) (result : MTPUpdates) (w : World MTPUpdates) :
  effects (done_body c result w)
  = effects w
    ++ [UserSetName (cap_first c) (cap_last c) (nameOrPhone (_user w)) (username (_user w));
        ApiApplyUpdates result]
    ++ match settings (_user (done_applyUpdates result (done_setName c w))) with
       | Some s =>
           [UserSetSettings
              (Z.land s (Z.lnot (Z.lor (Z.lor f_add_contact f_block_contact)
                                   f_report_spam)))]
       | None => []
       end
    ++ (if box_alive (_box w) then [CloseBox] else [])
    ++ (if cap_wasContact c then [] else [ToastShow (lng_new_contact_add_done (cap_first c))]).
Proof.
  unfold done_body, done_toast, done_close, closeBox, done_settings,
    done_applyUpdates, done_setName.
  cbn [_user with_user emit].
  destruct (settings (applyUpdates result
              (setName (cap_first c) (cap_last c) (nameOrPhone (_user w))
                 (username (_user w)) (_user w)))) as [s|];
    cbn [_box with_user emit effects];
    destruct (box_alive (_box w)); cbn [_box with_user emit effects];
    destruct (cap_wasContact c); cbn [negb _box with_user emit effects];
    repeat rewrite <- app_assoc; simpl; rewrite ?app_nil_r; reflexivity.
Qed.

(** ** Settings flags *)

Lemma testbit_flag (b i : N) : Z.testbit (flag b) (Z.of_N i) = (i =? b)%N.
Proof.
  rewrite flag_pow, Z.pow2_bits_eqb by lia.
  destruct (N.eqb_spec i b) as [->|Hne].
  - apply Z.eqb_refl.
  - apply Z.eqb_neq. lia.
Qed.

Lemma testbit_cleared (s m : Z) (i : N) :
  Z.testbit (Z.land s (Z.lnot m)) (Z.of_N i)
  = Z.testbit s (Z.of_N i) && negb (Z.testbit m (Z.of_N i)).
Proof. rewrite Z.land_spec, Z.lnot_spec by lia. reflexivity. Qed.

(** Masking keeps a 32-bit value within 32 bits, so no wrap-around is
    involved. *)
Lemma cleared_in_range (s m : Z) :
  0 <= s < 2 ^ 32 -> 0 <= Z.land s (Z.lnot m) < 2 ^ 32.
Proof.
  intros Hs.
  assert (Hmod : Z.land s (Z.lnot m) = Z.land s (Z.lnot m) mod 2 ^ 32).
  { rewrite <- Z.land_ones by lia.
    rewrite <- Z.land_assoc, (Z.land_comm (Z.lnot m)), Z.land_assoc.
    rewrite (Z.land_ones s) by lia. rewrite Z.mod_small by exact Hs. reflexivity. }
  rewrite Hmod. apply Z.mod_pos_bound. lia.
Qed.

(** The three flags the success handler removes. *)
Lemma testbit_done_settings (s : Z) (i : N) :
  Z.testbit (Z.land s (Z.lnot (Z.lor (Z.lor f_add_contact f_block_contact) f_report_spam)))
    (Z.of_N i)
  = Z.testbit s (Z.of_N i)
    && negb ((i =? bit_add_contact) || (i =? bit_block_contact) || (i =? bit_report_spam))%N.
Proof.
  rewrite testbit_cleared, !Z.lor_spec.
  unfold f_add_contact, f_block_contact, f_report_spam.
  rewrite !testbit_flag. reflexivity.
Qed.


(** The test [settings & f] for a single-bit flag reads that bit. *)
Lemma hasFlag_testbit (s : Z) (b : N) :
  hasFlag s (flag b) = Z.testbit s (Z.of_N b).
Proof.
  unfold hasFlag.
  destruct (Z.testbit s (Z.of_N b)) eqn:Hbit.
  - apply negb_true_iff, Z.eqb_neq. intros Hz.
    assert (Ht : Z.testbit (Z.land s (flag b)) (Z.of_N b) = true).
    { rewrite Z.land_spec, Hbit, testbit_flag, N.eqb_refl. reflexivity. }
    rewrite Hz, Z.bits_0 in Ht. discriminate.
  - apply negb_false_iff, Z.eqb_eq.
    apply Z.bits_inj'. intros n Hn.
    rewrite Z.land_spec, Z.bits_0, <- (Z2N.id n Hn), testbit_flag.
    destruct (N.eqb_spec (Z.to_N n) b) as [->|]; [|apply andb_false_r].
    rewrite Hbit. reflexivity.
Qed.

Lemma done_settings_user (w : World MTPUpdates) :
  _user (done_settings w)
  = match settings (_user w) with
    | Some s =>
        setSettings
          (Z.land s (Z.lnot (Z.lor (Z.lor f_add_contact f_block_contact) f_report_spam)))
          (_user w)
    | None => _user w
    end.
Proof. unfold done_settings. destruct (settings (_user w)); reflexivity. Qed.



(** ** Layout *)

(** The rows of the finished box: the cover, the two name fields in
    visual order, the warning for a stranger without a phone, and the
    share-phone checkbox with its label when the exception is requested. *)
Lemma rows_EditContactBox (user : UserData) :
  rows (_box (EditContactBox user))
  = [Cover (if isEmpty (UserPhone user)
            then inl lng_contact_mobile_hidden
            else inr (formatPhone (UserPhone user)))]
    ++ (if langFirstNameGoesSecond
        then [InputField last lng_signup_lastname (lastName user);
              InputField first lng_signup_firstname (firstName user)]
        else [InputField first lng_signup_firstname (firstName user);
              InputField last lng_signup_lastname (lastName user)])
    ++ (if isContact user || negb (isEmpty (UserPhone user)) then []
        else [FlatLabel (lng_contact_phone_after (shortName user))])
    ++ (if needsException user
        then [Checkbox lng_contact_share_phone true;
              FlatLabel (lng_contact_phone_will_be_shared (shortName user))]
        else []).
Proof.
  unfold needsException, hasFlag, EditContactBox, prepare, setupContent,
    setupSharePhoneNumber, setupWarning, setupNameFields, initNameFields, setupCover.
  destruct langFirstNameGoesSecond; simpl;
    destruct (isContact user); simpl;
    destruct (isEmpty (UserPhone user)); simpl;
    destruct (settings user) as [s|]; simpl;
    try destruct (Z.land s f_need_contacts_exception =? 0); reflexivity.
Qed.

Lemma sharePhone_EditContactBox (user : UserData) :
  _sharePhone (EditContactBox user) = if needsException user then Some true else None.
Proof.
  unfold needsException, hasFlag, EditContactBox, prepare, setupContent,
    setupSharePhoneNumber, setupWarning, setupNameFields, initNameFields, setupCover.
  destruct langFirstNameGoesSecond; simpl;
    destruct (isContact user); simpl;
    destruct (isEmpty (UserPhone user)); simpl;
    destruct (settings user) as [s|]; simpl;
    try destruct (Z.land s f_need_contacts_exception =? 0); reflexivity.
Qed.

(** C7.  The finished box holds the share-phone checkbox and its label,
    and [_sharePhone] points to the checkbox, exactly when the user has
    settings with the need-contacts-exception flag; otherwise the box holds
    no checkbox and no such label at all, and [_sharePhone] stays null. *)
Theorem sharePhone_rows (user : UserData) :
  (In (Checkbox lng_contact_share_phone true) (rows (_box (EditContactBox user)))
   <-> exists s, settings user = Some s /\ hasFlag s f_need_contacts_exception = true)
  /\ (In (FlatLabel (lng_contact_phone_will_be_shared (shortName user)))
         (rows (_box (EditContactBox user)))
      <-> exists s, settings user = Some s /\ hasFlag s f_need_contacts_exception = true)
  /\ (_sharePhone (EditContactBox user) = Some true
      <-> exists s, settings user = Some s /\ hasFlag s f_need_contacts_exception = true)
  /\ ((forall s, settings user = Some s -> hasFlag s f_need_contacts_exception = false) ->
      _sharePhone (EditContactBox user) = None
      /\ (forall text checked,
            ~ In (Checkbox text checked) (rows (_box (EditContactBox user))))
      /\ (forall name,
            ~ In (FlatLabel (lng_contact_phone_will_be_shared name))
               (rows (_box (EditContactBox user))))).
Proof.
  assert (Hneeds : needsException user = true
                   <-> exists s, settings user = Some s
                                 /\ hasFlag s f_need_contacts_exception = true).
  { unfold needsException. destruct (settings user) as [s|]; split.
    - intros H. exists s. split; [reflexivity | exact H].
    - intros [s' [Hs H]]. inversion Hs; subst. exact H.
    - discriminate.
    - intros [s' [Hs _]]. discriminate. }
  rewrite <- !Hneeds.
  rewrite rows_EditContactBox, sharePhone_EditContactBox.
  assert (Hrows : forall r : Row,
             (forall f p v, r <> InputField f p v) ->
             (forall c, r <> Cover c) ->
             (forall name, r <> FlatLabel (lng_contact_phone_after name)) ->
             forall tail,
               In r ([Cover (if isEmpty (UserPhone user)
                             then inl lng_contact_mobile_hidden
                             else inr (formatPhone (UserPhone user)))]
                     ++ (if langFirstNameGoesSecond
                         then [InputField last lng_signup_lastname (lastName user);
                               InputField first lng_signup_firstname (firstName user)]
                         else [InputField first lng_signup_firstname (firstName user);
                               InputField last lng_signup_lastname (lastName user)])
                     ++ (if isContact user || negb (isEmpty (UserPhone user)) then []
                         else [FlatLabel (lng_contact_phone_after (shortName user))])
                     ++ tail)
               <-> In r tail).
  { intros r Hi Hc Hl tail. rewrite !in_app_iff. split; [|tauto].
    intros [H|[H|[H|H]]]; [ | | | exact H]; exfalso.
    - destruct H as [H|[]]. exact (Hc _ (eq_sym H)).
    - destruct langFirstNameGoesSecond;
        destruct H as [H|[H|[]]]; exact (Hi _ _ _ (eq_sym H)).
    - destruct (isContact user || negb (isEmpty (UserPhone user))); [destruct H|].
      destruct H as [H|[]]. exact (Hl _ (eq_sym H)). }
  assert (Hnot : (forall s, settings user = Some s ->
                             hasFlag s f_need_contacts_exception = false) ->
                  needsException user = false).
  { unfold needsException. destruct (settings user) as [s|]; [|reflexivity].
    intros H. apply H. reflexivity. }
  split; [|split; [|split]].
  - rewrite Hrows by discriminate.
    destruct (needsException user); simpl; [tauto|].
    split; [tauto | discriminate].
  - rewrite Hrows by discriminate.
    destruct (needsException user); simpl; [tauto|].
    split; [tauto | discriminate].
  - destruct (needsException user); split; congruence.
  - intros H. rewrite (Hnot H). split; [reflexivity|].
    split; [intros text checked | intros name];
      rewrite Hrows by discriminate; simpl; tauto.
Qed.

(** ** The failure handler *)

(** C9.  A failed response changes nothing: the handler returns the world
    as it got it, and delivering the failure only retires the request.  The
    user (name and settings included), the box, the fields, the checkbox
    and the trace are the same afterwards, so nothing is shown and the box
    is not closed. *)
Theorem fail_changes_nothing (n : nat) (error : RPCError) (w : World MTPUpdates) :
  (forall c, sendRequest_fail c error w = w)
  /\ exists w', step (RequestFail n error) w = Some w'
       /\ _user w' = _user w
       /\ _box w' = _box w
       /\ firstText w' = firstText w
       /\ lastText w' = lastText w
       /\ focused w' = focused w
       /\ _sharePhone w' = _sharePhone w
       /\ _phone w' = _phone w
       /\ effects w' = effects w
       /\ toasts w' = toasts w
       /\ closeCalls w' = closeCalls w.
Proof.
  split; [reflexivity|].
  unfold step. destruct (nth_error (pending w) n) as [[r c]|].
  - eexists. split; [reflexivity|]. repeat split.
  - exists w. repeat split.
Qed.

(** ** Responses and the lifetime of the box *)

Lemma closeCalls_done_body (c : Captured) (result : MTPUpdates) (w : World MTPUpdates) :
  closeCalls (done_body c result w)
  = (closeCalls w + if box_alive (_box w) then 1 else 0)%nat.
Proof.
  unfold closeCalls. rewrite done_effects, !filter_app, !length_app.
  destruct (settings (_user (done_applyUpdates result (done_setName c w))));
    destruct (box_alive (_box w)), (cap_wasContact c); simpl; lia.
Qed.

(** While the box lives, a success response runs the handler. *)
Lemma step_done_alive (n : nat) (result : MTPUpdates) (w : World MTPUpdates) r c :
  nth_error (pending w) n = Some (r, c) ->
  box_alive (_box w) = true ->
  step (RPCError := RPCError) (RequestDone n result) w
  = Some (done_body c result (forget n w)).
Proof.
  intros Hn Ha. unfold step. rewrite Hn.
  apply sendRequest_done_alive. exact Ha.
Qed.

(** Once the box is destroyed the [Controller] is gone with it, and the
    success handler of a request still in flight reads [_user] through its
    dangling [this]: the run is undefined. *)
Lemma step_done_destroyed (n : nat) (result : MTPUpdates) (w : World MTPUpdates) r c :
  nth_error (pending w) n = Some (r, c) ->
  box_alive (_box w) = false ->
  step (RPCError := RPCError) (RequestDone n result) w = None.
Proof.
  intros Hn Ha. unfold step. rewrite Hn.
  apply sendRequest_done_destroyed. exact Ha.
Qed.

(** X16.  Every success response delivered while the box lives calls
    [closeBox] exactly once, whatever the settings and whether or not a
    toast is shown, and also when the box had already been asked to
    close. *)
Theorem done_closes_live_box_once (n : nat) (result : MTPUpdates)
    (w : World MTPUpdates) r c :
  nth_error (pending w) n = Some (r, c) ->
  box_alive (_box w) = true ->
  exists w',
    step (RPCError := RPCError) (RequestDone n result) w = Some w'
    /\ closeCalls w' = (closeCalls w + 1)%nat.
Proof.
  intros Hn Ha. eexists.
  split; [apply (step_done_alive n result w r c Hn Ha)|].
  rewrite closeCalls_done_body.
  change (box_alive (_box (forget n w))) with (box_alive (_box w)).
  rewrite Ha. reflexivity.
Qed.

End Facts.

(** * Concrete runs *)

Section Runs.

Import Sample.
Local Open Scope string_scope.

#[local] Existing Instance plainOrder.

(** Both fields empty, plain order: the leading field [first] is focused
    and marked; the trailing field [last] is not. *)
Lemma save_rejects_empty_names_witness :
  isEmpty (getValue first Scenes.blank) = true
  /\ isEmpty (getValue last Scenes.blank) = true
  /\ effects (_save false Scenes.blank)
     = (effects (_focus false Scenes.blank) ++ [ShowError first])%list
  /\ requests (_save false Scenes.blank) = requests Scenes.blank.
Proof.
  destruct (save_rejects_empty_names (E := plainOrder) false Scenes.blank eq_refl eq_refl)
    as (_ & _ & Herr & Hreq & _).
  split; [reflexivity|]. split; [reflexivity|]. split; [exact Herr | exact Hreq].
Defined.

(** C1 as stated fails: with both names empty the field marked erroneous
    is the first one in visual order, in plain and in inverted order; the
    later one is left alone. *)
Lemma save_marks_leading_field :
  (isEmpty (getValue first Scenes.blank) = true
   /\ isEmpty (getValue last Scenes.blank) = true
   /\ visualOrder Scenes.blank = [first; last]
   /\ effects (_save false Scenes.blank) = [SetFocusFast first; ShowError first]
   /\ ~ In (ShowError last) (effects (_save false Scenes.blank)))
  /\ (isEmpty (getValue (E := invertedOrder) first Scenes.blankInverted) = true
      /\ isEmpty (getValue (E := invertedOrder) last Scenes.blankInverted) = true
      /\ visualOrder Scenes.blankInverted = [last; first]
      /\ effects (_save (E := invertedOrder) true Scenes.blankInverted) = [SetFocusFast last; ShowError last]
      /\ ~ In (ShowError first) (effects (_save (E := invertedOrder) true Scenes.blankInverted))).
Proof.
  split; (repeat (split; [reflexivity|])); simpl;
    intros [H|[H|[]]]; discriminate H.
Qed.

(** A first name alone is enough for the request to go out, normalised. *)
Lemma save_sends_one_request_witness :
  (isEmpty (getValue first (with_texts "  Ann " "" Scenes.blank)) = false
   \/ isEmpty (getValue last (with_texts "  Ann " "" Scenes.blank)) = false)
  /\ exists r : AddContact,
       requests (_save false (with_texts "  Ann " "" Scenes.blank)) = [r]
       /\ req_first_name r = "Ann"
       /\ req_last_name r = "".
Proof.
  assert (H : isEmpty (getValue first (with_texts "  Ann " "" Scenes.blank)) = false
              \/ isEmpty (getValue last (with_texts "  Ann " "" Scenes.blank)) = false)
    by (left; reflexivity).
  split; [exact H|].
  destruct (save_sends_one_request (E := plainOrder) false (with_texts "  Ann " "" Scenes.blank) H)
    as (r & _ & Hreq & Hfirst & Hlast & _).
  exists r. split; [exact Hreq|]. split; [exact Hfirst | exact Hlast].
Defined.

(** Both names filled, focus in the leading field: the key moves on to
    the trailing field.  Inverted order, both names empty, focus in the
    leading field [last]: the key moves on to [first]. *)
Lemma submit_key_witness :
  (bothTrimmedEmpty (with_focused (Some first) Scenes.filled) = false
   /\ hasFocus (leading false) (with_focused (Some first) Scenes.filled) = true
   /\ submit false (with_focused (Some first) Scenes.filled)
      = setFocus last (with_focused (Some first) Scenes.filled))
  /\ (bothTrimmedEmpty (E := invertedOrder)
        (with_focused (Some last) Scenes.blankInverted) = true
      /\ hasFocus (leading true) (with_focused (Some last) Scenes.blankInverted) = true
      /\ submit (E := invertedOrder) true (with_focused (Some last) Scenes.blankInverted)
         = setFocus first (with_focused (Some last) Scenes.blankInverted)).
Proof.
  split.
  - split; [reflexivity|]. split; [reflexivity|].
    destruct (submit_key (E := plainOrder) false
                (with_focused (Some first) Scenes.filled)) as (H & _).
    exact (H eq_refl eq_refl).
  - split; [reflexivity|]. split; [reflexivity|].
    destruct (submit_key (E := invertedOrder) true
                (with_focused (Some last) Scenes.blankInverted)) as (_ & _ & _ & _ & H).
    exact (H eq_refl eq_refl eq_refl).
Defined.

(** C3 as stated fails twice in plain order.  With both names filled and
    the focus in the leading field the key does not save, it moves the
    focus to the trailing field although that field is not empty; with both
    names empty and the focus in the leading field the focus stays where it
    is instead of moving forward. *)
Lemma submit_key_not_as_stated :
  (isEmpty (trim (getLastText first (with_focused (Some first) Scenes.filled))) = false
   /\ isEmpty (trim (getLastText last (with_focused (Some first) Scenes.filled))) = false
   /\ visualOrder Scenes.filled = [first; last]
   /\ effects (submit false (with_focused (Some first) Scenes.filled)) = [SetFocus last]
   /\ requests (submit false (with_focused (Some first) Scenes.filled)) = []
   /\ List.length (requests (_save false (with_focused (Some first) Scenes.filled))) = 1%nat)
  /\ (bothTrimmedEmpty (with_focused (Some first) Scenes.blank) = true
      /\ visualOrder Scenes.blank = [first; last]
      /\ focused (with_focused (Some first) Scenes.blank) = Some first
      /\ effects (submit false (with_focused (Some first) Scenes.blank)) = [SetFocus first]
      /\ focused (submit false (with_focused (Some first) Scenes.blank)) = Some first).
Proof. repeat split. Qed.

(** Inverted order, only the last name present: the default focus goes to
    the trailing field [first]. *)
Lemma focusDefault_rule_witness :
  isEmpty (getValue (E := invertedOrder) first (with_texts "" "Lee" Scenes.blankInverted))
  && isEmpty (getValue (E := invertedOrder) last (with_texts "" "Lee" Scenes.blankInverted)) = false
  /\ focused (_focus (E := invertedOrder) true (with_texts "" "Lee" Scenes.blankInverted)) = Some first.
Proof.
  split; [reflexivity|].
  destruct (focusDefault_rule (E := invertedOrder) true (with_texts "" "Lee" Scenes.blankInverted))
    as (_ & H & _).
  exact (H eq_refl).
Defined.

(** C4 as stated fails: in inverted order with only the first name
    present, the default focus goes to the first-name field, which is the
    filled one; the empty last-name field is not focused. *)
Lemma focusDefault_focuses_filled_field :
  isEmpty (getValue (E := invertedOrder) first (with_texts "Ann" "" Scenes.blankInverted)) = false
  /\ isEmpty (getValue (E := invertedOrder) last (with_texts "Ann" "" Scenes.blankInverted)) = true
  /\ visualOrder Scenes.blankInverted = [last; first]
  /\ effects (_focus (E := invertedOrder) true (with_texts "Ann" "" Scenes.blankInverted)) = [SetFocusFast first]
  /\ focused (_focus (E := invertedOrder) true (with_texts "Ann" "" Scenes.blankInverted)) = Some first
  /\ focused (_focus (E := invertedOrder) true (with_texts "Ann" "" Scenes.blankInverted)) <> Some last.
Proof. repeat split. discriminate. Qed.




(** C2 as stated fails: a first name holding a lone DEL character is not
    empty after trimming, yet it is empty after single-line normalisation
    and trimming, and the save action rejects it without a request. *)
Lemma save_rejects_trimmed_nonempty :
  isEmpty (trimmed (getLastText first
                      (with_texts (String (Ascii.ascii_of_nat 127) "") "" Scenes.blank)))
  = false
  /\ isEmpty (getValue first
                (with_texts (String (Ascii.ascii_of_nat 127) "") "" Scenes.blank))
     = true
  /\ isEmpty (getValue last
                (with_texts (String (Ascii.ascii_of_nat 127) "") "" Scenes.blank))
     = true
  /\ effects (_save false
                (with_texts (String (Ascii.ascii_of_nat 127) "") "" Scenes.blank))
     = [SetFocusFast first; ShowError first]
  /\ requests (_save false
                 (with_texts (String (Ascii.ascii_of_nat 127) "") "" Scenes.blank))
     = [].
Proof. vm_compute. repeat split. Qed.

(** The whole flow on a live box: a stranger is named and saved, the
    response arrives, the box is closed, the toast is shown once and the
    settings lose the three bar flags. *)
Lemma run_add_stranger :
  let final := run (RPCError := string) [TextEdited first "Ann"; ButtonClicked ButtonSave;
                    RequestDone 0 Scenes.joined] Scenes.blank in
  option_map effects final
  = Some [ApiRequest (mkAddContact 1 777 "Ann" "" "");
          UserSetName "Ann" "" "" "ann";
          ApiApplyUpdates Scenes.joined;
          UserSetSettings 16;
          CloseBox;
          ToastShow (lng_new_contact_add_done "Ann")]
  /\ option_map (fun w => firstName (_user w)) final = Some "Ann"
  /\ option_map (fun w => isContact (_user w)) final = Some true
  /\ option_map (fun w => settings (_user w)) final = Some (Some 16)
  /\ option_map pending final = Some [].
Proof. vm_compute. repeat split. Qed.

(** Editing a contact: no checkbox, so no flag in the request, and no
    toast on success. *)
Lemma run_edit_friend :
  let final := run (RPCError := string) [TextEdited last "Ray"; ButtonClicked ButtonSave;
                    RequestDone 0 Scenes.unchanged] Scenes.filled in
  option_map effects final
  = Some [ApiRequest (mkAddContact 0 42 "Bob" "Ray" "15550100");
          UserSetName "Bob" "Ray" "" "bob";
          ApiApplyUpdates Scenes.unchanged;
          CloseBox]
  /\ option_map toasts final = Some [].
Proof. vm_compute. repeat split. Qed.

(** C8 (failing run).  The box is cancelled and destroyed while the request
    is in flight; when the success response arrives its handler starts by
    reading [_user] from the destroyed [Controller], before it ever gets to
    test [weak]: the run is undefined.  The same response is harmless as
    long as the box lives, and a failure response is harmless either way. *)
Theorem done_after_dismissal_is_undefined :
  run (RPCError := string) [TextEdited first "Ann"; ButtonClicked ButtonSave;
       ButtonClicked ButtonClose; BoxDestroyed;
       RequestDone 0 Scenes.joined] Scenes.blank = None
  /\ run (RPCError := string) [TextEdited first "Ann"; ButtonClicked ButtonSave;
          ButtonClicked ButtonClose;
          RequestDone 0 Scenes.joined] Scenes.blank <> None
  /\ run (RPCError := string) [TextEdited first "Ann"; ButtonClicked ButtonSave;
          ButtonClicked ButtonClose; BoxDestroyed;
          RequestFail 0 Scenes.floodWait] Scenes.blank <> None.
Proof.
  split; [vm_compute; reflexivity|].
  split; vm_compute; discriminate.
Qed.

End Runs.

(** * Further properties of the box *)

Section Construction.

Context {MTPUpdates RPCError : Type} {E : Externals MTPUpdates}.

(** The state [EditContactBox] leaves behind, field by field. *)
Lemma EditContactBox_state (user : UserData) :
  _user (EditContactBox user) = user
  /\ title (_box (EditContactBox user))
     = Some (if isContact user then lng_edit_contact_title else lng_enter_contact_data)
  /\ buttons (_box (EditContactBox user))
     = [(lng_box_done, ButtonSave); (lng_cancel, ButtonClose)]
  /\ tabOrder (_box (EditContactBox user))
     = (if langFirstNameGoesSecond then [(last, first)] else [])
  /\ focusCallbackSet (_box (EditContactBox user)) = true
  /\ box_alive (_box (EditContactBox user)) = true
  /\ firstText (EditContactBox user) = firstName user
  /\ lastText (EditContactBox user) = lastName user
  /\ focused (EditContactBox user) = None
  /\ _phone (EditContactBox user) = UserPhone user
  /\ pending (EditContactBox user) = []
  /\ effects (EditContactBox user) = [].
Proof.
  unfold EditContactBox, prepare, setupContent,
    setupSharePhoneNumber, setupWarning, setupNameFields, initNameFields, setupCover.
  destruct langFirstNameGoesSecond; simpl;
    destruct (isContact user) eqn:Hc; simpl;
    destruct (isEmpty (UserPhone user)); simpl;
    destruct (settings user) as [s|]; simpl;
    try destruct (Z.land s f_need_contacts_exception =? 0); simpl;
    rewrite ?Hc; repeat split.
Qed.

(** X1.  The warning that the phone will only become visible later is in
    the box exactly for a user who is not a contact and whose phone could
    not be resolved; for a contact no such label is there, whatever the
    phone. *)
Theorem warning_iff_stranger_without_phone (user : UserData) :
  (In (FlatLabel (lng_contact_phone_after (shortName user)))
      (rows (_box (EditContactBox user)))
   <-> isContact user = false /\ isEmpty (UserPhone user) = true)
  /\ (isContact user = true ->
      forall name, ~ In (FlatLabel (lng_contact_phone_after name))
                      (rows (_box (EditContactBox user)))).
Proof.
  rewrite rows_EditContactBox.
  split.
  - destruct langFirstNameGoesSecond, (isContact user), (isEmpty (UserPhone user)),
      (needsException user); simpl; split;
      try (intros [? ?]; discriminate);
      try (intros _; tauto);
      intros H; decompose [or] H; try discriminate; tauto.
  - intros Hc name. rewrite Hc. simpl.
    destruct langFirstNameGoesSecond, (needsException user); simpl;
      intros H; decompose [or] H; try discriminate; tauto.
Qed.

(** X2.  The cover is always the first row and the only cover; it shows
    the "mobile hidden" text exactly when no phone could be resolved, and
    the formatted resolved phone otherwise.  Whenever the warning label is
    shown, the cover shows "mobile hidden". *)
Theorem cover_row (user : UserData) :
  (exists rest,
     rows (_box (EditContactBox user))
     = Cover (if isEmpty (UserPhone user)
              then inl lng_contact_mobile_hidden
              else inr (formatPhone (UserPhone user))) :: rest
     /\ forall status, ~ In (Cover status) rest)
  /\ (forall name,
        In (FlatLabel (lng_contact_phone_after name)) (rows (_box (EditContactBox user))) ->
        In (Cover (inl lng_contact_mobile_hidden)) (rows (_box (EditContactBox user)))).
Proof.
  rewrite rows_EditContactBox.
  split.
  - eexists. split; [reflexivity|].
    intros status.
    destruct langFirstNameGoesSecond, (isContact user || negb (isEmpty (UserPhone user))),
      (needsException user); simpl;
      intros H; decompose [or] H; try discriminate; tauto.
  - intros name.
    destruct (isEmpty (UserPhone user)); [simpl; tauto|].
    rewrite orb_true_r.
    destruct langFirstNameGoesSecond, (needsException user); simpl;
      intros H; decompose [or] H; try discriminate; tauto.
Qed.

(** X3.  The box has its three fixed rows, one more for the warning and
    two more for the share-phone pair: between three and six rows. *)
Theorem rowsCount_EditContactBox (user : UserData) :
  rowsCount (EditContactBox user)
  = (3 + (if isContact user || negb (isEmpty (UserPhone user)) then 0 else 1)
     + (if needsException user then 2 else 0))%nat
  /\ (3 <= rowsCount (EditContactBox user) <= 6)%nat.
Proof.
  unfold rowsCount. rewrite rows_EditContactBox.
  destruct langFirstNameGoesSecond, (isContact user || negb (isEmpty (UserPhone user))),
    (needsException user); simpl; lia.
Qed.

(** X4.  The two name fields stand in the order leading, trailing; each
    starts with the user's current name part; and the only tab-order pair
    ever set goes from the leading to the trailing field, so that the tab
    order follows the visual order in both name orders. *)
Theorem name_fields_layout (user : UserData) :
  visualOrder (EditContactBox user)
  = [leading langFirstNameGoesSecond; trailing langFirstNameGoesSecond]
  /\ getLastText first (EditContactBox user) = firstName user
  /\ getLastText last (EditContactBox user) = lastName user
  /\ (forall a b, In (a, b) (tabOrder (_box (EditContactBox user))) ->
        a = leading langFirstNameGoesSecond /\ b = trailing langFirstNameGoesSecond)
  /\ (langFirstNameGoesSecond = true ->
        tabOrder (_box (EditContactBox user)) = [(last, first)]).
Proof.
  destruct (EditContactBox_state user)
    as (_ & _ & _ & Htab & _ & _ & Hf & Hl & _).
  split; [apply visualOrder_EditContactBox|].
  split; [exact Hf|]. split; [exact Hl|].
  rewrite Htab. split.
  - intros a b. destruct langFirstNameGoesSecond; simpl; [|tauto].
    intros [H|[]]. inversion H. split; reflexivity.
  - intros ->. reflexivity.
Qed.

(** X5.  Opening the box is silent: it sends no request, shows nothing and
    leaves the user record alone.  The title tells editing from adding by
    the contact flag alone, and the buttons are Done (save) and Cancel
    (close), in that order. *)
Theorem prepare_is_silent (user : UserData) :
  _user (EditContactBox user) = user
  /\ effects (EditContactBox user) = []
  /\ pending (EditContactBox user) = []
  /\ requests (EditContactBox user) = []
  /\ title (_box (EditContactBox user))
     = Some (if isContact user then lng_edit_contact_title else lng_enter_contact_data)
  /\ buttons (_box (EditContactBox user))
     = [(lng_box_done, ButtonSave); (lng_cancel, ButtonClose)]
  /\ focusCallbackSet (_box (EditContactBox user)) = true.
Proof.
  destruct (EditContactBox_state user)
    as (Hu & Ht & Hb & _ & Hc & _ & _ & _ & _ & _ & Hp & He).
  unfold requests. rewrite He. repeat split; assumption.
Qed.

End Construction.

Section Behaviour.

Context {MTPUpdates RPCError : Type} {E : Externals MTPUpdates}.

Lemma sameForm_refl (w : World MTPUpdates) : sameForm w w.
Proof. repeat split. Qed.

Lemma sameForm_setFocus (f : Field) (w : World MTPUpdates) : sameForm w (setFocus f w).
Proof. repeat split. Qed.

Lemma sameForm_sendRequest (a b : QString) (w : World MTPUpdates) :
  sameForm w (sendRequest a b w).
Proof. repeat split. Qed.


Lemma save_shape (inverted : bool) (w : World MTPUpdates) :
  (isEmpty (getValue first w) && isEmpty (getValue last w) = true
   /\ _save inverted w = showError (leading inverted) (_focus inverted w))
  \/ (isEmpty (getValue first w) && isEmpty (getValue last w) = false
      /\ _save inverted w = sendRequest (getValue first w) (getValue last w) w).
Proof.
  unfold _save.
  destruct (isEmpty (getValue first w) && isEmpty (getValue last w));
    [left | right]; split; try reflexivity;
    destruct inverted; reflexivity.
Qed.

Lemma submit_shape (inverted : bool) (w : World MTPUpdates) :
  (exists f, submit inverted w = setFocus f w) \/ submit inverted w = _save inverted w.
Proof.
  unfold submit.
  destruct inverted, (hasFocus last w), (hasFocus first w),
    (isEmpty (trimmed (getLastText first w)) && isEmpty (trimmed (getLastText last w)));
    simpl; try (right; reflexivity); left; eexists; reflexivity.
Qed.

Lemma requests_setFocus (f : Field) (w : World MTPUpdates) :
  requests (setFocus f w) = requests w.
Proof. unfold setFocus. rewrite requests_emit. simpl. apply app_nil_r. Qed.

Lemma requests_rejected (inverted : bool) (w : World MTPUpdates) :
  requests (showError (leading inverted) (_focus inverted w)) = requests w.
Proof.
  unfold showError, _focus, setFocusFast. rewrite !requests_emit. simpl.
  rewrite !app_nil_r. reflexivity.
Qed.

Lemma requests_sendRequest (a b : QString) (w : World MTPUpdates) :
  exists r, requests (sendRequest a b w) = requests w ++ [r]
            /\ req_first_name r = a /\ req_last_name r = b
            /\ req_phone r = _phone w /\ req_id r = bareId (_user w)
            /\ req_flags r = (if match _sharePhone w with
                                 | Some checked => checked
                                 | None => false
                                 end
                              then f_add_phone_privacy_exception else 0)
            /\ pending (sendRequest a b w)
               = pending w ++ [(r, mkCaptured a b (isContact (_user w)))]
            /\ effects (sendRequest a b w) = effects w ++ [ApiRequest r].
Proof.
  unfold sendRequest. eexists. rewrite requests_emit. simpl.
  repeat split.
Qed.

Lemma sameForm_save (inverted : bool) (w : World MTPUpdates) :
  sameForm w (_save inverted w).
Proof.
  destruct (save_shape inverted w) as [[_ ->]|[_ ->]].
  - repeat split.
  - apply sameForm_sendRequest.
Qed.

Lemma sameForm_submit (inverted : bool) (w : World MTPUpdates) :
  sameForm w (submit inverted w).
Proof.
  destruct (submit_shape inverted w) as [[f ->]| ->].
  - apply sameForm_setFocus.
  - apply sameForm_save.
Qed.


(** X7.  Whatever the focus, and although the submit slot looks at the
    trimmed texts only, the submit key never sends a request when both
    names are empty after single-line normalisation and trimming. *)
Theorem submit_never_sends_empty (inverted : bool) (w : World MTPUpdates) :
  isEmpty (getValue first w) && isEmpty (getValue last w) = true ->
  requests (submit inverted w) = requests w
  /\ pending (submit inverted w) = pending w.
Proof.
  intros Hempty.
  destruct (submit_shape inverted w) as [[f ->]| ->].
  - split; [apply requests_setFocus | reflexivity].
  - destruct (save_shape inverted w) as [[_ ->]|[Hne _]].
    + split; [apply requests_rejected | reflexivity].
    + rewrite Hempty in Hne. discriminate.
Qed.

(** X8.  With a name typed and the focus in the leading field, pressing
    the submit key twice moves to the trailing field and then sends the
    request, whether or not the trailing field is filled. *)
Theorem enter_twice_sends (inverted : bool) (w : World MTPUpdates) :
  bothTrimmedEmpty w = false ->
  isEmpty (getValue first w) && isEmpty (getValue last w) = false ->
  hasFocus (leading inverted) w = true ->
  exists r,
    effects (submit inverted (submit inverted w))
    = effects w ++ [SetFocus (trailing inverted); ApiRequest r]
    /\ req_first_name r = getValue first w
    /\ req_last_name r = getValue last w.
Proof.
  intros Htrim Hval Hfocus.
  assert (H1 : submit inverted w = setFocus (trailing inverted) w).
  { unfold bothTrimmedEmpty in Htrim. unfold submit.
    destruct inverted; simpl in *.
    - rewrite Hfocus. reflexivity.
    - rewrite Htrim, Hfocus. reflexivity. }
  assert (H2 : submit inverted (setFocus (trailing inverted) w)
               = _save inverted (setFocus (trailing inverted) w)).
  { unfold bothTrimmedEmpty in Htrim. unfold submit.
    destruct inverted; simpl in *; rewrite Htrim; reflexivity. }
  rewrite H1, H2.
  destruct (save_shape inverted (setFocus (trailing inverted) w)) as [[He _]|[_ ->]].
  - change (isEmpty (getValue first w) && isEmpty (getValue last w) = true) in He.
    rewrite Hval in He. discriminate.
  - destruct (requests_sendRequest
                (getValue first (setFocus (trailing inverted) w))
                (getValue last (setFocus (trailing inverted) w))
                (setFocus (trailing inverted) w))
      as (r & _ & Hf & Hl & _ & _ & _ & _ & Heff).
    exists r. rewrite Heff.
    change (effects (setFocus (trailing inverted) w))
      with (effects w ++ [SetFocus (trailing inverted)]).
    rewrite <- app_assoc. split; [reflexivity|]. split; assumption.
Qed.

(** X9.  Nothing guards the save action against a request in flight:
    invoked twice on the same texts it sends the same request twice. *)
Theorem save_twice_sends_twice (inverted : bool) (w : World MTPUpdates) :
  isEmpty (getValue first w) && isEmpty (getValue last w) = false ->
  exists r,
    requests (_save inverted (_save inverted w)) = requests w ++ [r; r]
    /\ List.length (pending (_save inverted (_save inverted w)))
       = (List.length (pending w) + 2)%nat.
Proof.
  intros Hval.
  assert (Hs : forall w0 : World MTPUpdates,
             getValue first w0 = getValue first w ->
             getValue last w0 = getValue last w ->
             _save inverted w0 = sendRequest (getValue first w) (getValue last w) w0).
  { intros w0 Hf Hl. unfold _save. rewrite Hf, Hl, Hval. reflexivity. }
  rewrite (Hs w eq_refl eq_refl).
  rewrite (Hs (sendRequest (getValue first w) (getValue last w) w) eq_refl eq_refl).
  destruct (requests_sendRequest (getValue first w) (getValue last w) w)
    as (r1 & Hr1 & Hf1 & Hl1 & Hp1 & Hi1 & Hg1 & Hq1 & _).
  destruct (requests_sendRequest (getValue first w) (getValue last w)
              (sendRequest (getValue first w) (getValue last w) w))
    as (r2 & Hr2 & Hf2 & Hl2 & Hp2 & Hi2 & Hg2 & Hq2 & _).
  assert (Heq : r2 = r1).
  { destruct r1, r2. simpl in *. congruence. }
  exists r1. rewrite Hr2, Hr1, Hq2, Hq1, Heq, <- app_assoc.
  split; [reflexivity|].
  rewrite !length_app. simpl. lia.
Qed.

End Behaviour.

Section Responses.

Context {MTPUpdates RPCError : Type} {E : Externals MTPUpdates}.

(** X10.  A box that has just been opened sends, on save, the privacy
    exception exactly when the user's settings ask for it (the checkbox is
    created checked), together with the user's id and the phone resolved
    at construction; the names are the normalised texts typed since. *)
Theorem fresh_box_request (user : UserData) (typedFirst typedLast : QString)
    (inverted : bool) :
  isEmpty (trimmed (SingleLine typedFirst)) && isEmpty (trimmed (SingleLine typedLast))
  = false ->
  requests (_save inverted (with_texts typedFirst typedLast (EditContactBox user)))
  = [ {| req_flags := if needsException user then f_add_phone_privacy_exception else 0;
         req_id := bareId user;
         req_first_name := trimmed (SingleLine typedFirst);
         req_last_name := trimmed (SingleLine typedLast);
         req_phone := UserPhone user |} ].
Proof.
  intros Hval.
  destruct (EditContactBox_state user)
    as (Hu & _ & _ & _ & _ & _ & _ & _ & _ & Hph & _ & He).
  pose proof (sharePhone_EditContactBox user) as Hsp.
  unfold _save, getValue. cbn [getLastText with_texts firstText lastText].
  rewrite Hval.
  destruct (requests_sendRequest (trimmed (SingleLine typedFirst))
              (trimmed (SingleLine typedLast))
              (with_texts typedFirst typedLast (EditContactBox user)))
    as (r & Hr & Hf & Hl & Hp & Hi & Hg & _).
  rewrite Hr. unfold requests at 1. cbn [effects with_texts]. rewrite He. simpl.
  cbn [_phone _user _sharePhone with_texts] in Hp, Hi, Hg.
  rewrite Hph in Hp. rewrite Hu in Hi. rewrite Hsp in Hg.
  destruct r. simpl in *. subst.
  destruct (needsException user); reflexivity.
Qed.

Lemma done_keeps_form (c : Captured) (result : MTPUpdates) (w : World MTPUpdates) :
  _box (done_body c result w) = _box w
  /\ firstText (done_body c result w) = firstText w
  /\ lastText (done_body c result w) = lastText w
  /\ focused (done_body c result w) = focused w
  /\ _sharePhone (done_body c result w) = _sharePhone w
  /\ _phone (done_body c result w) = _phone w
  /\ pending (done_body c result w) = pending w.
Proof.
  unfold done_body, done_toast, done_close, closeBox, done_settings,
    done_applyUpdates, done_setName.
  cbn [_user with_user emit].
  destruct (settings (applyUpdates result
              (setName (cap_first c) (cap_last c) (nameOrPhone (_user w))
                 (username (_user w)) (_user w)))) as [s|];
    cbn [_box with_user emit];
    destruct (box_alive (_box w)); destruct (cap_wasContact c);
    repeat split.
Qed.

Lemma requests_done (c : Captured) (result : MTPUpdates) (w : World MTPUpdates) :
  requests (done_body c result w) = requests w.
Proof.
  unfold requests. rewrite done_effects, !collect_app.
  destruct (settings (_user (done_applyUpdates result (done_setName c w))));
    destruct (box_alive (_box w)), (cap_wasContact c); simpl;
    rewrite ?app_nil_r; reflexivity.
Qed.

(** X11.  A success response that finds the box alive touches nothing of
    the form: the box record, the field texts, the focus, the checkbox, the
    resolved phone and the other requests in flight are as before, and it
    sends no request of its own. *)
Theorem done_changes_user_only (c : Captured) (result : MTPUpdates)
    (w : World MTPUpdates) :
  box_alive (_box w) = true ->
  exists w',
    sendRequest_done c result w = Some w'
    /\ _box w' = _box w
    /\ firstText w' = firstText w
    /\ lastText w' = lastText w
    /\ focused w' = focused w
    /\ _sharePhone w' = _sharePhone w
    /\ _phone w' = _phone w
    /\ pending w' = pending w
    /\ requests w' = requests w.
Proof.
  intros Halive. exists (done_body c result w).
  pose proof (done_keeps_form c result w) as H.
  pose proof (requests_done c result w) as Hr.
  split; [apply sendRequest_done_alive; exact Halive | tauto].
Qed.

(** X12.  Removing the three bar flags is idempotent and only ever
    removes: a second pass leaves the user as the first one did, no flag
    that was clear becomes set, and 32-bit settings stay within 32 bits. *)
Theorem done_settings_idempotent (w : World MTPUpdates) :
  _user (done_settings (done_settings w)) = _user (done_settings w)
  /\ (forall s s',
        settings (_user w) = Some s ->
        settings (_user (done_settings w)) = Some s' ->
        (forall b : N, hasFlag s' (flag b) = true -> hasFlag s (flag b) = true)
        /\ (0 <= s < 2 ^ 32 -> 0 <= s' < 2 ^ 32)).
Proof.
  split.
  - rewrite !done_settings_user.
    destruct (settings (_user w)) as [s|] eqn:Hs; simpl; [|rewrite Hs; reflexivity].
    unfold setSettings. simpl.
    rewrite <- Z.land_assoc, Z.land_diag. reflexivity.
  - intros s s' Hs Hs'. rewrite done_settings_user, Hs in Hs'. simpl in Hs'.
    inversion Hs'; subst s'. split.
    + intros b. rewrite !hasFlag_testbit, testbit_done_settings.
      intros H. apply andb_true_iff in H. tauto.
    + apply cleared_in_range.
Qed.

End Responses.

Section Runs_of_events.

Context {MTPUpdates RPCError : Type} {E : Externals MTPUpdates}.

Lemma Forall_forget {A} (P : A -> Prop) (n : nat) (l : list A) :
  Forall P l -> Forall P (firstn n l ++ skipn (S n) l).
Proof.
  intros H. apply Forall_app. split.
  - rewrite <- (firstn_skipn n l) in H. apply Forall_app in H. tauto.
  - rewrite <- (firstn_skipn (S n) l) in H. apply Forall_app in H. tauto.
Qed.

Lemma wellSent_ext (resolved : QString) (w w' : World MTPUpdates) :
  _phone w' = _phone w -> requests w' = requests w -> pending w' = pending w ->
  wellSent resolved w -> wellSent resolved w'.
Proof.
  unfold wellSent. intros -> -> ->. tauto.
Qed.

Lemma wellSent_save (resolved : QString) (inverted : bool) (w : World MTPUpdates) :
  wellSent resolved w -> wellSent resolved (_save inverted w).
Proof.
  intros Hw.
  destruct (save_shape inverted w) as [[_ ->]|[Hne ->]].
  - apply (wellSent_ext resolved w); try reflexivity; [apply requests_rejected | exact Hw].
  - destruct (requests_sendRequest (getValue first w) (getValue last w) w)
      as (r & Hr & Hf & Hl & Hp & _ & _ & Hq & _).
    destruct Hw as (Hphone & Hreq & Hpend).
    unfold wellSent. rewrite Hr, Hq.
    split; [exact Hphone|]. split; apply Forall_app; split; try assumption.
    + constructor; [|constructor]. rewrite Hf, Hl, Hp. split; assumption.
    + constructor; [|constructor]. simpl. rewrite Hf, Hl. split; reflexivity.
Qed.

Lemma wellSent_submit (resolved : QString) (inverted : bool) (w : World MTPUpdates) :
  wellSent resolved w -> wellSent resolved (submit inverted w).
Proof.
  intros Hw.
  destruct (submit_shape inverted w) as [[f ->]| ->].
  - apply (wellSent_ext resolved w); try reflexivity; [apply requests_setFocus | exact Hw].
  - apply wellSent_save. exact Hw.
Qed.

Lemma wellSent_forget (resolved : QString) (n : nat) (w : World MTPUpdates) :
  wellSent resolved w -> wellSent resolved (forget n w).
Proof.
  intros (Hphone & Hreq & Hpend). unfold wellSent.
  split; [exact Hphone|]. split; [exact Hreq|].
  apply Forall_forget. exact Hpend.
Qed.

Lemma wellSent_step (resolved : QString) (e : Event MTPUpdates RPCError)
    (w w' : World MTPUpdates) :
  step e w = Some w' -> wellSent resolved w -> wellSent resolved w'.
Proof.
  intros Hstep Hw.
  assert (Hemit : forall (x : Effect MTPUpdates) (w0 : World MTPUpdates),
             requestOf x = None -> wellSent resolved w0 -> wellSent resolved (emit x w0)).
  { intros x w0 Hx H0. apply (wellSent_ext resolved w0); try reflexivity; [|exact H0].
    rewrite requests_emit, Hx. apply app_nil_r. }
  destruct e as [f text| |f| | |a| |user|n result|n error]; unfold step in Hstep.
  - destruct (box_alive (_box w)); inversion Hstep; subst; [|exact Hw].
    destruct f; exact Hw.
  - destruct (box_alive (_box w)); inversion Hstep; subst; exact Hw.
  - destruct (box_alive (_box w)); inversion Hstep; subst; exact Hw.
  - destruct (box_alive (_box w)); inversion Hstep; subst; [|exact Hw].
    apply Hemit; [reflexivity | exact Hw].
  - destruct (box_alive (_box w)); inversion Hstep; subst; [|exact Hw].
    apply wellSent_submit. exact Hw.
  - destruct (box_alive (_box w)); inversion Hstep; subst; [|exact Hw].
    destruct a.
    + apply wellSent_save. exact Hw.
    + apply Hemit; [reflexivity | exact Hw].
  - inversion Hstep; subst. exact Hw.
  - inversion Hstep; subst. exact Hw.
  - destruct (nth_error (pending w) n) as [[r c]|]; [|inversion Hstep; subst; exact Hw].
    unfold sendRequest_done in Hstep.
    destruct (box_alive (_box (forget n w))); inversion Hstep; subst.
    apply (wellSent_ext resolved (forget n w)).
    + apply done_keeps_form.
    + apply requests_done.
    + apply done_keeps_form.
    + apply wellSent_forget. exact Hw.
  - destruct (nth_error (pending w) n) as [[r c]|]; inversion Hstep; subst;
      [apply wellSent_forget|]; exact Hw.
Qed.

Lemma wellSent_run (resolved : QString) (es : list (Event MTPUpdates RPCError)) :
  forall w w' : World MTPUpdates,
    run es w = Some w' -> wellSent resolved w -> wellSent resolved w'.
Proof.
  induction es as [|e es IH]; intros w w' Hrun Hw; simpl in Hrun.
  - inversion Hrun; subst. exact Hw.
  - destruct (step e w) as [w1|] eqn:Hstep; [|discriminate].
    apply (IH w1 w' Hrun). apply (wellSent_step resolved e w w1 Hstep Hw).
Qed.

(** X13.  Through any sequence of edits, focus moves, key presses, button
    clicks, user updates and responses after which the box is still
    defined, every request that was sent carries a name (first and last are
    not both empty) and the phone resolved when the box was opened, and
    every handler still waiting captured the names of its own request. *)
Theorem requests_always_well_formed (user : UserData)
    (es : list (Event MTPUpdates RPCError)) (w : World MTPUpdates) :
  run es (EditContactBox user) = Some w ->
  _phone w = UserPhone user
  /\ (forall r, In r (requests w) ->
        isEmpty (req_first_name r) && isEmpty (req_last_name r) = false
        /\ req_phone r = UserPhone user)
  /\ (forall r c, In (r, c) (pending w) ->
        cap_first c = req_first_name r /\ cap_last c = req_last_name r).
Proof.
  intros Hrun.
  destruct (EditContactBox_state user)
    as (_ & _ & _ & _ & _ & _ & _ & _ & _ & Hph & Hp & He).
  assert (H0 : wellSent (UserPhone user) (EditContactBox user)).
  { unfold wellSent, requests. rewrite Hph, Hp, He. simpl.
    split; [reflexivity|]. split; constructor. }
  destruct (wellSent_run (UserPhone user) es _ _ Hrun H0) as (Hphone & Hreq & Hpend).
  split; [exact Hphone|]. split.
  - intros r Hin. rewrite Forall_forall in Hreq. apply Hreq. exact Hin.
  - intros r c Hin. rewrite Forall_forall in Hpend. apply (Hpend (r, c)). exact Hin.
Qed.

(** X14.  Outside the success handler nothing writes the user record:
    every event other than a success response or an update made by the
    session itself leaves it as it was. *)
Theorem user_written_by_done_only (e : Event MTPUpdates RPCError)
    (w w' : World MTPUpdates) :
  step e w = Some w' ->
  (forall n result, e <> RequestDone n result) ->
  (forall user, e <> UserUpdated user) ->
  _user w' = _user w.
Proof.
  intros Hstep Hdone Hupd.
  destruct e as [f text| |f| | |a| |user|n result|n error]; unfold step in Hstep;
    try (exfalso; eapply Hdone; reflexivity);
    try (exfalso; eapply Hupd; reflexivity).
  - destruct (box_alive (_box w)); inversion Hstep; subst; [|reflexivity].
    destruct f; reflexivity.
  - destruct (box_alive (_box w)); inversion Hstep; subst; reflexivity.
  - destruct (box_alive (_box w)); inversion Hstep; subst; reflexivity.
  - destruct (box_alive (_box w)); inversion Hstep; subst; reflexivity.
  - destruct (box_alive (_box w)); inversion Hstep; subst; [|reflexivity].
    apply (sameForm_submit langFirstNameGoesSecond w).
  - destruct (box_alive (_box w)); inversion Hstep; subst; [|reflexivity].
    destruct a; [|reflexivity].
    apply (sameForm_save langFirstNameGoesSecond w).
  - inversion Hstep; subst. reflexivity.
  - destruct (nth_error (pending w) n) as [[r c]|]; inversion Hstep; subst; reflexivity.
Qed.

(** X15.  Adding a contact from a freshly opened box: the first name is
    typed, Done is pressed and the success response arrives while the box
    is open.  One request has been sent, none is left in flight, the box is
    closed once, and the toast with the normalised first name is shown
    exactly when the user was not a contact on opening. *)
Theorem add_contact_flow (user : UserData) (typed : QString) (result : MTPUpdates) :
  isEmpty (trimmed (SingleLine typed)) = false ->
  exists w,
    run (RPCError := RPCError)
      [TextEdited first typed; ButtonClicked ButtonSave; RequestDone 0 result]
      (EditContactBox user) = Some w
    /\ toasts w = (if isContact user then []
                   else [lng_new_contact_add_done (trimmed (SingleLine typed))])
    /\ closeCalls w = 1%nat
    /\ List.length (requests w) = 1%nat
    /\ pending w = [].
Proof.
  intros Hval.
  destruct (EditContactBox_state user)
    as (Hu & _ & _ & _ & _ & Halive & _ & _ & _ & _ & Hp & He).
  set (w0 := EditContactBox user) in *.
  set (w1 := with_texts typed (lastText w0) w0).
  set (a := trimmed (SingleLine typed)) in *.
  assert (Hsave : _save langFirstNameGoesSecond w1 = sendRequest a (getValue last w1) w1).
  { unfold _save. change (getValue first w1) with a. rewrite Hval. reflexivity. }
  set (w2 := sendRequest a (getValue last w1) w1) in *.
  destruct (requests_sendRequest a (getValue last w1) w1)
    as (r & Hr & _ & _ & _ & _ & _ & Hq & Heff).
  fold w2 in Hr, Hq, Heff.
  change (pending w1) with (pending w0) in Hq.
  change (_user w1) with (_user w0) in Hq.
  rewrite Hp, Hu in Hq. cbn [app] in Hq.
  change (effects w1) with (effects w0) in Heff. rewrite He in Heff. cbn [app] in Heff.
  set (c := mkCaptured a (getValue last w1) (isContact user)) in *.
  assert (S1 : step (RPCError := RPCError) (TextEdited first typed) w0 = Some w1).
  { unfold step. rewrite Halive. reflexivity. }
  assert (S2 : step (RPCError := RPCError) (ButtonClicked ButtonSave) w1 = Some w2).
  { unfold step. change (box_alive (_box w1)) with (box_alive (_box w0)).
    rewrite Halive. cbn [widgetEvent]. rewrite Hsave. reflexivity. }
  assert (S3 : step (RPCError := RPCError) (RequestDone 0 result) w2
               = Some (done_body c result (forget 0 w2))).
  { unfold step. rewrite Hq. cbn [nth_error].
    apply sendRequest_done_alive. exact Halive. }
  exists (done_body c result (forget 0 w2)).
  split; [cbn [run]; rewrite S1, S2, S3; reflexivity|].
  assert (Heff' : effects (forget 0 w2) = [ApiRequest r]) by exact Heff.
  split; [|split; [|split]].
  - rewrite toasts_done. unfold toasts at 1. rewrite Heff'. simpl.
    destruct (isContact user); reflexivity.
  - unfold closeCalls. rewrite done_effects, Heff'.
    change (box_alive (_box (forget 0 w2))) with (box_alive (_box w0)).
    rewrite Halive, !filter_app, !length_app.
    destruct (settings (_user (done_applyUpdates result (done_setName c (forget 0 w2)))));
      destruct (cap_wasContact c); reflexivity.
  - rewrite requests_done. unfold requests. rewrite Heff'. reflexivity.
  - destruct (done_keeps_form c result (forget 0 w2)) as (_ & _ & _ & _ & _ & _ & Hpd).
    rewrite Hpd. unfold forget. cbn [pending with_pending]. rewrite Hq. reflexivity.
Qed.

End Runs_of_events.

(** * Concrete runs, continued *)

Section More_runs.

Import Sample.
Import Ascii.
Local Open Scope string_scope.

#[local] Existing Instance plainOrder.

(** A first-name field holding only a DEL character: not empty for the
    submit slot, empty for the save action.  With the focus in the trailing
    field the key goes to the save action, which rejects. *)
Lemma submit_never_sends_empty_witness :
  isEmpty (getValue first
             (with_focused (Some last)
                (with_texts (String (ascii_of_nat 127) "") "" Scenes.blank)))
  && isEmpty (getValue last
                (with_focused (Some last)
                   (with_texts (String (ascii_of_nat 127) "") "" Scenes.blank))) = true
  /\ bothTrimmedEmpty
       (with_focused (Some last)
          (with_texts (String (ascii_of_nat 127) "") "" Scenes.blank)) = false
  /\ requests (submit false
                 (with_focused (Some last)
                    (with_texts (String (ascii_of_nat 127) "") "" Scenes.blank)))
     = requests Scenes.blank.
Proof.
  split; [reflexivity|]. split; [reflexivity|].
  destruct (submit_never_sends_empty (E := plainOrder) false
              (with_focused (Some last)
                 (with_texts (String (ascii_of_nat 127) "") "" Scenes.blank))
              eq_refl) as (H & _).
  exact H.
Defined.

Lemma enter_twice_sends_witness :
  bothTrimmedEmpty (with_focused (Some first) Scenes.filled) = false
  /\ hasFocus (leading false) (with_focused (Some first) Scenes.filled) = true
  /\ exists r,
       effects (submit false (submit false (with_focused (Some first) Scenes.filled)))
       = [SetFocus last; ApiRequest r]
       /\ req_first_name r = "Bob" /\ req_last_name r = "Lee".
Proof.
  split; [reflexivity|]. split; [reflexivity|].
  destruct (enter_twice_sends (E := plainOrder) false
              (with_focused (Some first) Scenes.filled) eq_refl eq_refl eq_refl)
    as (r & He & Hf & Hl).
  exists r. split; [exact He|]. split; [exact Hf | exact Hl].
Defined.

Lemma save_twice_sends_twice_witness :
  isEmpty (getValue first Scenes.filled) && isEmpty (getValue last Scenes.filled) = false
  /\ exists r, requests (_save false (_save false Scenes.filled)) = [r; r].
Proof.
  split; [reflexivity|].
  destruct (save_twice_sends_twice (E := plainOrder) false Scenes.filled eq_refl)
    as (r & Hr & _).
  exists r. exact Hr.
Defined.

Lemma fresh_box_request_witness :
  isEmpty (trimmed (SingleLine " Ann")) && isEmpty (trimmed (SingleLine "")) = false
  /\ requests (_save false (with_texts " Ann" "" (EditContactBox stranger)))
     = [mkAddContact 1 777 "Ann" "" ""].
Proof.
  split; [reflexivity|].
  exact (fresh_box_request (E := plainOrder) stranger " Ann" "" false eq_refl).
Defined.

Lemma requests_always_well_formed_witness :
  run (RPCError := string)
    [TextEdited first "Ann"; ButtonClicked ButtonSave; Submitted]
    (EditContactBox stranger)
  = Some (submit false (_save false (with_texts "Ann" "" Scenes.blank)))
  /\ forall r,
       In r (requests (submit false (_save false (with_texts "Ann" "" Scenes.blank)))) ->
       isEmpty (req_first_name r) && isEmpty (req_last_name r) = false
       /\ req_phone r = "".
Proof.
  assert (Hrun : run (RPCError := string)
                   [TextEdited first "Ann"; ButtonClicked ButtonSave; Submitted]
                   (EditContactBox stranger)
                 = Some (submit false (_save false (with_texts "Ann" "" Scenes.blank))))
    by (vm_compute; reflexivity).
  split; [exact Hrun|].
  destruct (requests_always_well_formed (E := plainOrder) stranger _ _ Hrun)
    as (_ & H & _).
  exact H.
Defined.

Lemma user_written_by_done_only_witness :
  step (RPCError := string) (ButtonClicked ButtonSave) (with_texts "Ann" "" Scenes.blank)
  = Some (_save false (with_texts "Ann" "" Scenes.blank))
  /\ _user (_save false (with_texts "Ann" "" Scenes.blank)) = stranger.
Proof.
  assert (Hstep : step (RPCError := string) (ButtonClicked ButtonSave)
                    (with_texts "Ann" "" Scenes.blank)
                  = Some (_save false (with_texts "Ann" "" Scenes.blank)))
    by (vm_compute; reflexivity).
  split; [exact Hstep|].
  rewrite (user_written_by_done_only (E := plainOrder) (RPCError := string)
             (ButtonClicked ButtonSave) (with_texts "Ann" "" Scenes.blank)
             (_save false (with_texts "Ann" "" Scenes.blank)) Hstep).
  - vm_compute. reflexivity.
  - intros; discriminate.
  - intros; discriminate.
Defined.

Lemma add_contact_flow_witness :
  isEmpty (trimmed (SingleLine " Ann ")) = false
  /\ exists w,
       run (RPCError := string)
         [TextEdited first " Ann "; ButtonClicked ButtonSave; RequestDone 0 Scenes.joined]
         (EditContactBox stranger) = Some w
       /\ toasts w = [lng_new_contact_add_done "Ann"]
       /\ closeCalls w = 1%nat.
Proof.
  split; [reflexivity|].
  destruct (add_contact_flow (E := plainOrder) (RPCError := string)
              stranger " Ann " Scenes.joined eq_refl)
    as (w & Hrun & Ht & Hc & _).
  exists w. split; [exact Hrun|]. split; [exact Ht | exact Hc].
Defined.

Lemma done_changes_user_only_witness :
  box_alive (_box (_save false (with_texts "Ann" "Lee" Scenes.blank))) = true
  /\ exists w',
       sendRequest_done (mkCaptured "Ann" "Lee" false) Scenes.joined
         (_save false (with_texts "Ann" "Lee" Scenes.blank)) = Some w'
       /\ firstText w' = "Ann"
       /\ lastText w' = "Lee"
       /\ requests w' = [mkAddContact 1 777 "Ann" "Lee" ""].
Proof.
  assert (Halive : box_alive (_box (_save false (with_texts "Ann" "Lee" Scenes.blank)))
                   = true) by (vm_compute; reflexivity).
  split; [exact Halive|].
  destruct (done_changes_user_only (E := plainOrder) (mkCaptured "Ann" "Lee" false)
              Scenes.joined (_save false (with_texts "Ann" "Lee" Scenes.blank)) Halive)
    as (w' & Hrun & _ & Hf & Hl & _ & _ & _ & _ & Hr).
  exists w'. split; [exact Hrun|].
  split; [rewrite Hf; vm_compute; reflexivity|].
  split; [rewrite Hl; vm_compute; reflexivity|].
  rewrite Hr. vm_compute. reflexivity.
Defined.

(** Done, then Cancel, then the response before the box is destroyed:
    [closeBox] is called a second time. *)
Lemma done_closes_live_box_once_witness :
  nth_error (pending (closeBox (_save false (with_texts "Ann" "" Scenes.blank)))) 0
  = Some (mkAddContact 1 777 "Ann" "" "", mkCaptured "Ann" "" false)
  /\ box_alive (_box (closeBox (_save false (with_texts "Ann" "" Scenes.blank)))) = true
  /\ exists w',
       step (RPCError := string) (RequestDone 0 Scenes.joined)
         (closeBox (_save false (with_texts "Ann" "" Scenes.blank))) = Some w'
       /\ closeCalls w' = 2%nat.
Proof.
  assert (Hn : nth_error
                 (pending (closeBox (_save false (with_texts "Ann" "" Scenes.blank)))) 0
               = Some (mkAddContact 1 777 "Ann" "" "", mkCaptured "Ann" "" false))
    by (vm_compute; reflexivity).
  assert (Halive : box_alive
                     (_box (closeBox (_save false (with_texts "Ann" "" Scenes.blank))))
                   = true) by (vm_compute; reflexivity).
  split; [exact Hn|]. split; [exact Halive|].
  destruct (done_closes_live_box_once (E := plainOrder) (RPCError := string)
              0 Scenes.joined
              (closeBox (_save false (with_texts "Ann" "" Scenes.blank))) _ _ Hn Halive)
    as (w' & Hstep & Hc).
  exists w'. split; [exact Hstep|]. rewrite Hc. vm_compute. reflexivity.
Defined.

End More_runs.
